(** * akshare_get_csv.py: fetch A-share history, normalise it, write a CSV

    A shallow embedding of [get_stock_data] and of the command line of
    [akshare_get_csv.py], with the properties of its specification.

    Layout: Python values (strings, exceptions), the pandas operations the
    script calls, the file system and the console, the script itself, the
    command line; then the theorems.

    The platform is POSIX ([/] separates the components of a path), the
    console is a UTF-8 text stream with Python's default error handler
    ([strict]), and the command line is read by the [argparse] of
    Python 3.11. *)

From Stdlib Require Import String Ascii.
From stdpp Require Import base numbers option list gmap sorting.

Open Scope N_scope.

(** ** Python strings

    A [str] is a sequence of Unicode code points.  It may hold code points
    that no encoding accepts (lone surrogates), which is why writing a file
    can fail. *)

Definition pystr := list N.

(** Bytes of a source literal. *)
Fixpoint bytes_of (s : string) : list N :=
  match s with
  | EmptyString => []
  | String a r => N_of_ascii a :: bytes_of r
  end.

Definition cont (b : N) : N := N.land b 0x3F.

(** UTF-8 decoding, used to read the literals of the script (the file is
    UTF-8).  A truncated sequence decodes to U+FFFD. *)
Fixpoint utf8_decode (bs : list N) : pystr :=
  match bs with
  | [] => []
  | b0 :: r0 =>
    if b0 <? 0x80 then b0 :: utf8_decode r0
    else match r0 with
    | [] => [0xFFFD]
    | b1 :: r1 =>
      if b0 <? 0xE0 then
        N.lor (N.shiftl (N.land b0 0x1F) 6) (cont b1) :: utf8_decode r1
      else match r1 with
      | [] => [0xFFFD]
      | b2 :: r2 =>
        if b0 <? 0xF0 then
          N.lor (N.shiftl (N.land b0 0x0F) 12)
            (N.lor (N.shiftl (cont b1) 6) (cont b2)) :: utf8_decode r2
        else match r2 with
        | [] => [0xFFFD]
        | b3 :: r3 =>
          N.lor (N.shiftl (N.land b0 0x07) 18)
            (N.lor (N.shiftl (cont b1) 12)
               (N.lor (N.shiftl (cont b2) 6) (cont b3))) :: utf8_decode r3
        end
      end
    end
  end.

(** A literal of the script. *)
Definition py (s : string) : pystr := utf8_decode (bytes_of s).

(** [str.encode('utf-8')] on one code point, with the default [strict]
    error handler: surrogates and values beyond U+10FFFF are refused. *)
Definition utf8_encode_cp (c : N) : option (list N) :=
  if c <? 0x80 then Some [c]
  else if c <? 0x800 then
    Some [N.lor 0xC0 (N.shiftr c 6); N.lor 0x80 (N.land c 0x3F)]
  else if c <? 0x10000 then
    if (0xD800 <=? c) && (c <=? 0xDFFF) then None
    else Some [N.lor 0xE0 (N.shiftr c 12);
               N.lor 0x80 (N.land (N.shiftr c 6) 0x3F);
               N.lor 0x80 (N.land c 0x3F)]
  else if c <? 0x110000 then
    Some [N.lor 0xF0 (N.shiftr c 18);
          N.lor 0x80 (N.land (N.shiftr c 12) 0x3F);
          N.lor 0x80 (N.land (N.shiftr c 6) 0x3F);
          N.lor 0x80 (N.land c 0x3F)]
  else None.

Fixpoint utf8_encode (s : pystr) : option (list N) :=
  match s with
  | [] => Some []
  | c :: r =>
    match utf8_encode_cp c, utf8_encode r with
    | Some b, Some br => Some (b ++ br)
    | _, _ => None
    end
  end.

Definition pystr_eqb (a b : pystr) : bool := bool_decide (a = b).

Definition str_in (s : pystr) (l : list pystr) : bool := bool_decide (s ∈ l).

(** [str.lower] on one character, for the characters whose lower-case form
    is an ASCII letter: A-Z and U+212A KELVIN SIGN.  The lower-case form of
    every other character is not ASCII; the script only compares lowered
    strings with ASCII literals, which distinguishes none of those forms
    from the character itself, so they are left as they are. *)
Definition lower_cp (c : N) : N :=
  if (0x41 <=? c) && (c <=? 0x5A) then c + 32
  else if c =? 0x212A then 0x6B
  else c.

Definition lower (s : pystr) : pystr := lower_cp <$> s.

(** ** The adjustment mapper (lines 21-26) *)

Definition adjust_map (adjust_type : pystr) : pystr :=
  if str_in (lower adjust_type) [py "none"; py "no"; py "false"; py ""]
  then py ""
  else if pystr_eqb (lower adjust_type) (py "hfq") then py "hfq"
  else py "qfq".

Close Scope N_scope.

(** ** Exceptions and results

    The instances of [Exception] the run can meet.  [ProviderError] stands
    for whatever the provider call raises, [msg] being its [str];
    [NotASeries] for the [TypeError] or [ValueError] pandas raises when
    [df[label]] is a frame because the label occurs more than once;
    [ValueError] and [OutOfBoundsDatetime] are those of [pd.to_datetime],
    with the text of the value it refused; [AttributeError] is that of
    calling [lower] on a list. *)

Inductive exn :=
| ProviderError (msg : pystr)
| KeyError (label : pystr)
| NotASeries (label : pystr)
| ValueError (text : pystr)
| OutOfBoundsDatetime (text : pystr)
| FileExistsError (p : list pystr)
| FileNotFoundError (p : list pystr)
| NotADirectoryError (p : list pystr)
| IsADirectoryError (p : list pystr)
| UnicodeEncodeError
| AttributeError.

Inductive result (A : Type) :=
| Ok (a : A)
| Raise (e : exn).
Arguments Ok {A} a.
Arguments Raise {A} e.

Definition rbind {A B} (r : result A) (k : A -> result B) : result B :=
  match r with
  | Ok a => k a
  | Raise e => Raise e
  end.

(** All-or-nothing traversal: the first failure is the failure. *)
Fixpoint rmap {A B} (f : A -> result B) (l : list A) : result (list B) :=
  match l with
  | [] => Ok []
  | a :: r => rbind (f a) (fun b => rbind (rmap f r) (fun bs => Ok (b :: bs)))
  end.

(** ** Dates *)

Record date := Date { year : nat; month : nat; day : nat }.

Definition leap (y : nat) : bool :=
  ((y mod 4 =? 0) && negb (y mod 100 =? 0)) || (y mod 400 =? 0).

Definition days_in_month (y m : nat) : nat :=
  match m with
  | 2 => if leap y then 29 else 28
  | 4 | 6 | 9 | 11 => 30
  | _ => 31
  end.

Definition calendar_ok (d : date) : bool :=
  (1 <=? month d) && (month d <=? 12) &&
  (1 <=? day d) && (day d <=? days_in_month (year d) (month d)).

(** Chronological order. *)
Definition date_leb (a b : date) : bool :=
  (year a <? year b) ||
  ((year a =? year b) &&
   ((month a <? month b) || ((month a =? month b) && (day a <=? day b)))).

(** The days of the calendar whose year has four digits.  [strftime]
    below is that of such a day; the model refuses the others (see
    [as_timestamp]). *)
Definition four_digits (d : date) : bool :=
  calendar_ok d && (1000 <=? year d) && (year d <? 10 * 1000).

Definition digit (n : nat) : N := N.of_nat (48 + n mod 10).

Definition pad2 (n : nat) : pystr := [digit (n / 10); digit n].

Definition pad4 (n : nat) : pystr :=
  [digit (n / 1000); digit (n / 100); digit (n / 10); digit n].

(** [strftime('%Y-%m-%d')]. *)
Definition strftime_ymd (d : date) : pystr :=
  pad4 (year d) ++ py "-" ++ pad2 (month d) ++ py "-" ++ pad2 (day d).

(** The shape [YYYY-MM-DD]: four digits, two digits for a month, two
    digits for a day of the month. *)
Definition is_digit (c : N) : bool := (0x30 <=? c)%N && (c <=? 0x39)%N.

Definition digit_value (c : N) : nat := N.to_nat (c - 0x30)%N.

Definition decimal (s : pystr) : nat :=
  fold_left (fun acc c => 10 * acc + digit_value c) s 0.


(** Python's order on [str]: lexicographic on the code points. *)
Fixpoint str_leb (a b : pystr) : bool :=
  match a, b with
  | [], _ => true
  | _ :: _, [] => false
  | x :: a', y :: b' => (x <? y)%N || ((x =? y)%N && str_leb a' b')
  end.

(** [str] of an [int]. *)
Fixpoint N_digits (fuel : nat) (n : N) (acc : pystr) : pystr :=
  match fuel with
  | 0 => acc
  | S f =>
    let acc' := (0x30 + n mod 10)%N :: acc in
    if (n <? 10)%N then acc' else N_digits f (n / 10)%N acc'
  end.

Definition repr_int (z : Z) : pystr :=
  (if (z <? 0)%Z then [0x2D%N] else []) ++
  N_digits (S (N.size_nat (Z.abs_N z))) (Z.abs_N z) [].

(** ** What pandas brings

    Numbers (integers and floating-point numbers), the parsers of pandas,
    the range of its timestamps and the messages of its exceptions are the
    library's own: the development is parametric in them. *)

Class Library := {
  (** the numbers a cell can hold, an [int] or a [float] (not NaN, which
      is [VNaN] below) *)
  number : Type;
  (** [pd.to_numeric] on a [str]; [None]: not a number *)
  parse_number : pystr -> option number;
  (** the dtype of a column that holds exactly these numbers and no
      missing value: is it a float dtype?  (It is when one of them is a
      [float], or when no integer dtype holds them all.) *)
  float_dtype : list number -> bool;
  (** the number as a [float64] *)
  to_float : number -> number;
  (** [pd.to_datetime] on a [str]: [None] when it is refused,
      [Some None] when it is read as [NaT] (the empty text is), a day
      otherwise *)
  parse_datetime : pystr -> option (option date);
  (** [pd.to_datetime] on a number (an offset from the epoch) *)
  number_to_datetime : number -> option date;
  (** the days a [Timestamp] can hold (every day in recent versions,
      1677-09-21 .. 2262-04-11 when the unit is the nanosecond) *)
  in_bounds : date -> bool;
  (** the text of a number, as [str] and [to_csv] give it: [10] for an
      [int], [10.0] for a [float] *)
  repr_number : number -> pystr;
  (** [str(e)] for the exceptions of pandas and of the file system *)
  str_exn : exn -> pystr
}.

Section Pandas.
Context `{Lib : Library}.

(** The values of a cell: a [str], a number, a missing value ([None], NaN
    or [NaT]), a [datetime.date]. *)
Inductive cell :=
| VStr (s : pystr)
| VNum (x : number)
| VNaN
| VDate (d : date).

Definition isna (c : cell) : bool :=
  match c with
  | VNaN => true
  | _ => false
  end.

(** A frame: the column labels in order, and the rows in order, each with
    its index label. *)
Record DataFrame := {
  columns : list pystr;
  rows : list (Z * list cell)
}.

(** Frames are rectangular. *)
Definition wf (df : DataFrame) : Prop :=
  Forall (fun r => length r.2 = length (columns df)) (rows df).

(** [df.empty]: some axis has length 0. *)
Definition empty (df : DataFrame) : bool :=
  bool_decide (length (columns df) = 0) || bool_decide (length (rows df) = 0).

(** [len(df)] and [df.head()]. *)
Definition len (df : DataFrame) : nat := length (rows df).

Definition head (df : DataFrame) : DataFrame :=
  {| columns := columns df; rows := take 5 (rows df) |}.

(** [df.rename(columns=table)]: a label that is a key is replaced, any
    other label is kept; nothing else changes. *)
Fixpoint rename_label (table : list (pystr * pystr)) (l : pystr) : pystr :=
  match table with
  | [] => l
  | (k, v) :: t => if pystr_eqb l k then v else rename_label t l
  end.

Definition rename (table : list (pystr * pystr)) (df : DataFrame) : DataFrame :=
  {| columns := rename_label table <$> columns df; rows := rows df |}.

(** The positions of a label among the columns. *)
Fixpoint positions_from (i : nat) (label : pystr) (cols : list pystr) : list nat :=
  match cols with
  | [] => []
  | c :: r =>
    if pystr_eqb c label then i :: positions_from (S i) label r
    else positions_from (S i) label r
  end.

Definition positions (label : pystr) (df : DataFrame) : list nat :=
  positions_from 0 label (columns df).

(** [df[label]] as a Series: the label must occur, and only once. *)
Definition locate (label : pystr) (df : DataFrame) : result nat :=
  match positions label df with
  | [] => Raise (KeyError label)
  | [i] => Ok i
  | _ => Raise (NotASeries label)
  end.

Definition cell_at (i : nat) (r : list cell) : cell := default VNaN (r !! i).

(** [pd.to_datetime] on one value.  A day is accepted when the library
    can hold it; the model accepts no day whose year has not four digits
    (there the text of [strftime] depends on the platform). *)
Definition as_timestamp (text : pystr) (d : date) : result (option date) :=
  if four_digits d && in_bounds d then Ok (Some d)
  else Raise (OutOfBoundsDatetime text).

Definition to_datetime (c : cell) : result (option date) :=
  match c with
  | VNaN => Ok None
  | VDate d => as_timestamp (strftime_ymd d) d
  | VStr s =>
    match parse_datetime s with
    | Some (Some d) => as_timestamp s d
    | Some None => Ok None
    | None => Raise (ValueError s)
    end
  | VNum x =>
    match number_to_datetime x with
    | Some d => as_timestamp (repr_number x) d
    | None => Raise (OutOfBoundsDatetime (repr_number x))
    end
  end.

(** [.dt.strftime('%Y-%m-%d')] on one value: [NaT] gives NaN. *)
Definition strftime (t : option date) : cell :=
  match t with
  | Some d => VStr (strftime_ymd d)
  | None => VNaN
  end.

(** Line 59: [df['date'] = pd.to_datetime(df['date']).dt.strftime('%Y-%m-%d')]. *)
Definition format_date (df : DataFrame) : result DataFrame :=
  rbind (locate (py "date") df) (fun i =>
  rbind (rmap (fun r : Z * list cell =>
                 rbind (to_datetime (cell_at i r.2)) (fun t =>
                 Ok (r.1, <[i := strftime t]> r.2)))
              (rows df)) (fun rs =>
  Ok {| columns := columns df; rows := rs |})).

(** What [pd.to_numeric(..., errors='coerce')] reads in one value: a
    number stays, a text is parsed, anything else is missing. *)
Definition numeric_value (c : cell) : cell :=
  match c with
  | VNum x => VNum x
  | VStr s =>
    match parse_number s with
    | Some x => VNum x
    | None => VNaN
    end
  | VNaN => VNaN
  | VDate _ => VNaN
  end.

Definition numbers_of (col : list cell) : list number :=
  omap (fun c => match c with VNum x => Some x | _ => None end) col.

(** The dtype of the values read: a float dtype when one is missing (an
    integer dtype has no NaN) or when the numbers ask for it. *)
Definition float_column (read : list cell) : bool :=
  existsb isna read || float_dtype (numbers_of read).

Definition settle (float : bool) (c : cell) : cell :=
  match c with
  | VNum x => if float then VNum (to_float x) else VNum x
  | _ => c
  end.

(** [pd.to_numeric(col, errors='coerce')]: the conversion is of the
    column, whose values all get its dtype; an [int] beside a missing
    value becomes a [float]. *)
Definition to_numeric (col : list cell) : list cell :=
  let read := numeric_value <$> col in
  settle (float_column read) <$> read.

(** [df[label]] (as values, a missing one where a row is short) and
    [df[label] = col]. *)
Definition column (i : nat) (df : DataFrame) : list cell :=
  (fun r : Z * list cell => cell_at i r.2) <$> rows df.

Definition assign (i : nat) (col : list cell) (df : DataFrame) : DataFrame :=
  {| columns := columns df;
     rows := zip_with (fun (r : Z * list cell) c => (r.1, <[i := c]> r.2))
               (rows df) col |}.

(** Line 65: [df[col] = pd.to_numeric(df[col], errors='coerce')]. *)
Definition coerce_column (col : pystr) (df : DataFrame) : result DataFrame :=
  rbind (locate col df) (fun i =>
  Ok (assign i (to_numeric (column i df)) df)).

(** The dtype [to_numeric] gives the column at [i]: is it a float dtype? *)
Definition floats (i : nat) (df : DataFrame) : bool :=
  float_column (numeric_value <$> column i df).

(** Lines 64-65: the loop over [numeric_cols]. *)
Fixpoint coerce_columns (cols : list pystr) (df : DataFrame) : result DataFrame :=
  match cols with
  | [] => Ok df
  | col :: r => rbind (coerce_column col df) (coerce_columns r)
  end.

(** [df.dropna(subset=..., how='all')]: every label of the subset must
    occur ([KeyError] otherwise); a row goes when all its values under
    those labels are missing. *)
Fixpoint subset_positions (subset : list pystr) (df : DataFrame) : result (list nat) :=
  match subset with
  | [] => Ok []
  | l :: r =>
    match positions l df with
    | [] => Raise (KeyError l)
    | ps => rbind (subset_positions r df) (fun qs => Ok (ps ++ qs))
    end
  end.

Definition all_missing (ps : list nat) (r : list cell) : bool :=
  forallb (fun i => isna (cell_at i r)) ps.

Definition dropna (subset : list pystr) (df : DataFrame) : result DataFrame :=
  rbind (subset_positions subset df) (fun ps =>
  Ok {| columns := columns df;
        rows := List.filter (fun r : Z * list cell => negb (all_missing ps r.2))
                  (rows df) |}).

(** The text of a value in a CSV ([na_rep] is the empty string).  A
    number is written as its type asks: the values of a float column are
    [float]s (see [to_numeric]). *)
Definition to_text (c : cell) : pystr :=
  match c with
  | VStr s => s
  | VNum x => repr_number x
  | VNaN => []
  | VDate d => strftime_ymd d
  end.

Definition index_text (k : Z) : pystr := repr_int k.

(** The lines of [df.to_csv(..., index=...)], header first, each line as
    its fields (before they are joined by commas). *)
Definition csv_lines (index : bool) (df : DataFrame) : list (list pystr) :=
  ((if index then [[]] else []) ++ columns df) ::
  ((fun r : Z * list cell =>
      (if index then [index_text r.1] else []) ++ (to_text <$> r.2))
   <$> rows df).

End Pandas.

(** ** Paths and the file system

    A path is the list of its components from the root.  A regular file
    holds the CSV lines written to it, each field as its bytes. *)

Abbreviation path := (list pystr).

Inductive node :=
| Dir
| File (content : list (list (list N))).

Definition sep : N := 0x2F%N.

(** [name.split('/')]. *)
Fixpoint split_sep (cur : pystr) (s : pystr) : list pystr :=
  match s with
  | [] => [cur]
  | c :: r => if (c =? sep)%N then cur :: split_sep [] r
              else split_sep (cur ++ [c]) r
  end.

(** Walking the components of a relative name from a directory: empty
    components and [.] stay in place, [..] goes up (where the system goes
    when the directory it leaves is there). *)
Fixpoint walk (d : path) (names : list pystr) : path :=
  match names with
  | [] => d
  | n :: r =>
    if pystr_eqb n [] || pystr_eqb n (py ".") then walk d r
    else if pystr_eqb n (py "..") then walk (removelast d) r
    else walk (d ++ [n]) r
  end.

(** [os.path.join(d, name)], up to the file it names: a name that starts
    with the separator is absolute and discards [d]. *)
Definition os_path_join (d : path) (name : pystr) : path :=
  match name with
  | c :: _ => if (c =? sep)%N then walk [] (split_sep [] name)
              else walk d (split_sep [] name)
  | [] => d
  end.

Definition is_dir (fs : gmap path node) (p : path) : bool :=
  match p with
  | [] => true
  | _ => match fs !! p with
         | Some Dir => true
         | _ => false
         end
  end.

(** [os.path.exists]. *)
Definition exists_ (fs : gmap path node) (p : path) : bool :=
  match p with
  | [] => true
  | _ => bool_decide (is_Some (fs !! p))
  end.

(** [os.makedirs(base/names)]: the missing ancestors are created on the
    way; the leaf must not exist. *)
Fixpoint mkdirs (base : path) (names : list pystr) (fs : gmap path node)
  : result unit * gmap path node :=
  match names with
  | [] => (Raise (FileExistsError base), fs)
  | n :: r =>
    let p := base ++ [n] in
    match r with
    | [] =>
      match fs !! p with
      | Some _ => (Raise (FileExistsError p), fs)
      | None => (Ok tt, <[p := Dir]> fs)
      end
    | _ :: _ =>
      match fs !! p with
      | Some Dir => mkdirs p r fs
      | Some (File _) => (Raise (NotADirectoryError p), fs)
      | None => mkdirs p r (<[p := Dir]> fs)
      end
    end
  end.

(** [open(p, 'w')]: may the file be created or truncated? *)
Definition open_w (fs : gmap path node) (p : path) : result unit :=
  if is_dir fs p then Raise (IsADirectoryError p)
  else if is_dir fs (removelast p) then Ok tt
  else if exists_ fs (removelast p) then Raise (NotADirectoryError p)
  else Raise (FileNotFoundError p).

(** Writing lines through a UTF-8 text stream: each line is encoded as it
    is written, and the first line that cannot be encoded stops the
    write, after the lines before it. *)
Definition encode_line (l : list pystr) : option (list (list N)) :=
  mapM utf8_encode l.

Fixpoint write_lines (ls : list (list pystr)) : list (list (list N)) * bool :=
  match ls with
  | [] => ([], true)
  | l :: r =>
    match encode_line l with
    | Some bl => let (w, ok) := write_lines r in (bl :: w, ok)
    | None => ([], false)
    end
  end.

(** ** The script *)

(** An argument of [get_stock_data] as the command line makes it: a
    [str], or the empty list [argparse] makes of the attached argument
    [--] (see [value_of] below). *)
Inductive arg :=
| Str (s : pystr)
| EmptyList.

(** [str(a)], as the f-strings of the script format it. *)
Definition str (a : arg) : pystr :=
  match a with
  | Str s => s
  | EmptyList => py "[]"
  end.

Definition utf8_ok (s : pystr) : bool := bool_decide (is_Some (utf8_encode s)).

Section Script.
Context `{Lib : Library}.

(** What the script prints, one constructor per [print] statement (and
    one for [traceback.print_exc], which writes to the error stream). *)
Inductive message :=
| MsgFetching (symbol adjust_type : pystr)     (* line 18 *)
| MsgEmptyResult (symbol : pystr)              (* line 39 *)
| MsgDirCreated (data_dir : path)              (* line 80 *)
| MsgSaved (full_file_path : path)             (* line 90 *)
| MsgRowCount (n : nat)                        (* line 91 *)
| MsgPreviewTitle                              (* line 92 *)
| MsgPreview (df : DataFrame)                  (* line 93 *)
| MsgException (e : exn)                       (* line 96 *)
| MsgTraceback (e : exn)                       (* line 98 *)
| MsgUsage (reason : pystr)                    (* argparse: usage and error *)
| MsgHelp.                                     (* argparse: -h *)

Record World := {
  fs : gmap path node;
  stdout : list message;
  stderr : list message
}.

(** The texts of a message that come from the data: the fixed words of
    the script and the digits of a number are text that UTF-8 encodes.
    The preview shows the labels and the values of the rows it is given,
    possibly shortened. *)
Definition exn_text (e : exn) : pystr :=
  match e with
  | ProviderError msg => msg
  | UnicodeEncodeError => py "'utf-8' codec can't encode character"
  | AttributeError => py "'list' object has no attribute 'lower'"
  | _ => str_exn e
  end.

Definition texts (m : message) : list pystr :=
  match m with
  | MsgFetching symbol adjust_type => [symbol; adjust_type]
  | MsgEmptyResult symbol => [symbol]
  | MsgDirCreated data_dir => data_dir
  | MsgSaved full_file_path => full_file_path
  | MsgRowCount _ => []
  | MsgPreviewTitle => []
  | MsgPreview df =>
    columns df ++ concat ((fun r : Z * list cell => to_text <$> r.2) <$> rows df)
  | MsgException e => [exn_text e]
  | MsgTraceback _ => []
  | MsgUsage _ => []
  | MsgHelp => []
  end.

(** Can the console encode the message? *)
Definition printable (m : message) : bool := forallb utf8_ok (texts m).

(** The request of lines 30-36. *)
Record request := {
  req_symbol : arg;
  req_period : pystr;
  req_start_date : pystr;
  req_end_date : pystr;
  req_adjust : pystr
}.

(** What the run depends on: the provider ([ak.stock_zh_a_hist], which
    returns a frame or raises), the day it is
    ([datetime.now().strftime('%Y%m%d')]) and where the script lies
    ([os.path.dirname(os.path.abspath(__file__))]). *)
Record Env := {
  provider : request -> result DataFrame;
  today : pystr;
  script_dir : path
}.

(** Statements: they read and change the world, and return or raise. *)
Definition M (A : Type) : Type := World -> result A * World.

Definition ret {A} (a : A) : M A := fun w => (Ok a, w).

Definition bind {A B} (m : M A) (k : A -> M B) : M B :=
  fun w => match m w with
           | (Ok a, w') => k a w'
           | (Raise e, w') => (Raise e, w')
           end.

Definition lift {A} (r : result A) : M A := fun w => (r, w).

(** [print]: the text is encoded before anything is written, and a text
    the console cannot encode raises. *)
Definition print (m : message) : M unit :=
  fun w =>
    if printable m then
      (Ok tt, {| fs := fs w; stdout := stdout w ++ [m]; stderr := stderr w |})
    else (Raise UnicodeEncodeError, w).

(** Writing to the error stream, whose error handler ([backslashreplace])
    refuses no text. *)
Definition eprint (m : message) : M unit :=
  fun w => (Ok tt, {| fs := fs w; stdout := stdout w; stderr := stderr w ++ [m] |}).

Definition path_exists (p : path) : M bool :=
  fun w => (Ok (exists_ (fs w) p), w).

Definition makedirs (p : path) : M unit :=
  fun w => let (r, f) := mkdirs [] p (fs w) in
           (r, {| fs := f; stdout := stdout w; stderr := stderr w |}).

(** [df.to_csv(p, index=..., encoding='utf-8')]: the file is opened
    (created or truncated), then the lines are written. *)
Definition to_csv (df : DataFrame) (p : path) (index : bool) : M unit :=
  fun w =>
    match open_w (fs w) p with
    | Raise e => (Raise e, w)
    | Ok _ =>
      let (written, ok) := write_lines (csv_lines index df) in
      (if ok then Ok tt else Raise UnicodeEncodeError,
       {| fs := <[p := File written]> (fs w);
          stdout := stdout w; stderr := stderr w |})
    end.

#[local] Instance M_ret : MRet M := @ret.
#[local] Instance M_bind : MBind M := fun A B k m => bind m k.

(** Lines 44-56. *)
Definition rename_table : list (pystr * pystr) :=
  [ (py "日期", py "date");
    (py "开盘", py "open");
    (py "收盘", py "close");
    (py "最高", py "high");
    (py "最低", py "low");
    (py "成交量", py "volume");
    (py "成交额", py "amount");
    (py "振幅", py "amplitude");
    (py "涨跌幅", py "pct_change");
    (py "涨跌额", py "price_change");
    (py "换手率", py "turnover") ].

(** Lines 62-63 and 69. *)
Definition numeric_cols : list pystr :=
  [py "open"; py "close"; py "high"; py "low"; py "volume"; py "amount";
   py "amplitude"; py "pct_change"; py "price_change"; py "turnover"].

Definition essential_cols : list pystr :=
  [py "open"; py "high"; py "low"; py "close"; py "volume"].

(** Lines 44-65: rename, date format, numeric coercion. *)
Definition coerced (df : DataFrame) : result DataFrame :=
  rbind (format_date (rename rename_table df)) (coerce_columns numeric_cols).

(** Lines 44-70: then the row drop. *)
Definition normalize (df : DataFrame) : result DataFrame :=
  rbind (coerced df) (dropna essential_cols).

(** What the normalizer makes of a fetched row [kr], the date being the
    column at [i] and [cols] the labels after the renaming: the index label
    stays; the date becomes its text; a value under a numeric label becomes
    what [to_numeric] reads in it, in the dtype of its column; any other
    value stays. *)
Definition normalized_row (i : nat) (cols : list pystr)
    (kr kr' : Z * list cell) : Prop :=
  kr'.1 = kr.1 /\
  exists t, to_datetime (cell_at i kr.2) = Ok t /\
    forall j,
      (j = i -> kr'.2 !! j = (fun _ => strftime t) <$> kr.2 !! j) /\
      (forall l, l ∈ numeric_cols -> cols !! j = Some l ->
         exists float,
           kr'.2 !! j = (fun c => settle float (numeric_value c)) <$> kr.2 !! j) /\
      (j <> i -> (forall l, l ∈ numeric_cols -> cols !! j <> Some l) ->
         kr'.2 !! j = kr.2 !! j).

(** Rows in ascending order of their dates: as the provider returns them
    (the day [to_datetime] reads at column [i]), and as they are written
    (the text at column [i], in the order of [str]). *)
Definition date_of (i : nat) (kr : Z * list cell) : option date :=
  match to_datetime (cell_at i kr.2) with
  | Ok t => t
  | Raise _ => None
  end.

Definition by_date (i : nat) (a b : Z * list cell) : Prop :=
  exists da db, date_of i a = Some da /\ date_of i b = Some db /\
                date_leb da db = true.

Definition by_date_text (i : nat) (a b : Z * list cell) : Prop :=
  exists sa sb, cell_at i a.2 = VStr sa /\ cell_at i b.2 = VStr sb /\
                str_leb sa sb = true.

(** The eleven normalized headers, in the order the specification gives. *)
Definition normalized_headers : list pystr :=
  [py "date"; py "open"; py "close"; py "high"; py "low"; py "volume";
   py "amount"; py "amplitude"; py "pct_change"; py "price_change";
   py "turnover"].

(** Lines 83-84. *)
Definition adj_suffix (ak_adjust : pystr) : pystr :=
  if pystr_eqb ak_adjust (py "") then py "no_adj" else ak_adjust.

Definition filename (symbol ak_adjust : pystr) : pystr :=
  symbol ++ py "_" ++ adj_suffix ak_adjust ++ py "_A_data.csv".

(** How the [try] block is left when it does not raise. *)
Inductive exit :=
| EmptyReturn                          (* the [return] of line 40 *)
| Completed (full_file_path : path).   (* the end of the block *)

(** The output path the specification names:
    [<program_directory>/A_data/{symbol}_{tag}_A_data.csv]. *)
Definition output_path (program_directory : path) (symbol tag : pystr) : path :=
  os_path_join (os_path_join program_directory (py "A_data"))
    (symbol ++ py "_" ++ tag ++ py "_A_data.csv").

(** The lines of the regular file at a path. *)
Definition file_at (f : gmap path node) (p : path)
  : option (list (list (list N))) :=
  match f !! p with
  | Some (File content) => Some content
  | _ => None
  end.

(** No regular file is created, removed or changed. *)
Definition same_files (f f' : gmap path node) : Prop :=
  forall q c, f' !! q = Some (File c) <-> f !! q = Some (File c).

(** Lines 72-93: save under the data directory ([symbol] is the text the
    f-string of line 84 makes of the argument). *)
Definition save (env : Env) (symbol ak_adjust : pystr) (df : DataFrame) : M exit :=
  let data_dir := os_path_join (script_dir env) (py "A_data") in
  found ← path_exists data_dir;
  (if found : bool then ret tt
   else makedirs data_dir;; print (MsgDirCreated data_dir) : M unit);;
  let full_file_path := os_path_join data_dir (filename symbol ak_adjust) in
  to_csv df full_file_path false;;
  print (MsgSaved full_file_path);;
  print (MsgRowCount (len df));;
  print MsgPreviewTitle;;
  print (MsgPreview (head df));;
  ret (Completed full_file_path).

(** The call of lines 30-36. *)
Definition fetch_for (env : Env) (symbol : arg) (ak_adjust : pystr)
  : result DataFrame :=
  provider env {| req_symbol := symbol;
                  req_period := py "daily";
                  req_start_date := py "19900101";
                  req_end_date := today env;
                  req_adjust := ak_adjust |}.

(** Lines 29-93: the [try] block. *)
Definition try_block_for (env : Env) (symbol : arg) (ak_adjust : pystr) : M exit :=
  df ← lift (fetch_for env symbol ak_adjust);
  if empty df then
    print (MsgEmptyResult (str symbol));;
    ret EmptyReturn
  else
    df ← lift (normalize df);
    save env (str symbol) ak_adjust df.

(** Lines 95-98: the handler.  Its [print] is not guarded: an exception
    whose text the console cannot encode makes it raise in turn. *)
Definition handler (e : exn) : M unit :=
  print (MsgException e);;
  eprint (MsgTraceback e).

(** Lines 28-98: the [try] statement. *)
Definition try_except (env : Env) (symbol : arg) (ak_adjust : pystr) : M unit :=
  fun w =>
    match try_block_for env symbol ak_adjust w with
    | (Ok _, w') => (Ok tt, w')
    | (Raise e, w') => handler e w'
    end.

(** Lines 12-98.  Line 18 prints before the [try] statement is entered,
    and lines 21-26 call [lower] on the selector before it too: what they
    raise leaves the function. *)
Definition get_stock_data_for (env : Env) (symbol adjust_type : arg) : M unit :=
  print (MsgFetching (str symbol) (str adjust_type));;
  match adjust_type with
  | EmptyList => lift (Raise AttributeError)
  | Str selector => try_except env symbol (adjust_map selector)
  end.

(** The same on two [str]s, as the script documents its arguments. *)
Definition fetch (env : Env) (symbol ak_adjust : pystr) : result DataFrame :=
  fetch_for env (Str symbol) ak_adjust.

Definition try_block (env : Env) (symbol ak_adjust : pystr) : M exit :=
  try_block_for env (Str symbol) ak_adjust.

Definition get_stock_data (env : Env) (symbol adjust_type : pystr) : M unit :=
  get_stock_data_for env (Str symbol) (Str adjust_type).

End Script.

(** ** The command line (lines 101-109)

    [argparse] on the arguments after the program name, for the parser
    the script builds: [-h]/[--help], [--code] (required) and [--adjust]
    (choices, default), no positional argument. *)

Inductive action :=
| ActHelp
| ActCode
| ActAdjust.

Definition option_strings : list (pystr * action) :=
  [ (py "-h", ActHelp); (py "--help", ActHelp);
    (py "--code", ActCode); (py "--adjust", ActAdjust) ].

Definition choices : list pystr := [py "qfq"; py "hfq"; py "none"].

Definition default_adjust : pystr := py "qfq".

Definition dash : N := 0x2D%N.

Fixpoint starts_with (s p : pystr) : bool :=
  match p, s with
  | [], _ => true
  | a :: p', b :: s' => (a =? b)%N && starts_with s' p'
  | _ :: _, [] => false
  end.

(** [t.split(c, 1)] when [c] occurs in [t]. *)
Fixpoint split_at (c : N) (t : pystr) : option (pystr * pystr) :=
  match t with
  | [] => None
  | a :: r =>
    if (a =? c)%N then Some ([], r)
    else match split_at c r with
         | Some (x, y) => Some (a :: x, y)
         | None => None
         end
  end.

Definition exact_option (t : pystr) : option action :=
  snd <$> List.find (fun oa => pystr_eqb oa.1 t) option_strings.

(** The options a token may abbreviate, each with its option string and
    the argument attached to the token. *)
Definition option_tuples (t : pystr) : list (action * pystr * option pystr) :=
  match t with
  | _ :: c1 :: _ =>
    if (c1 =? dash)%N then
      let (prefix, explicit) :=
        match split_at 0x3D%N t with
        | Some (x, y) => (x, Some y)
        | None => (t, None)
        end in
      flat_map (fun oa : pystr * action =>
                  if starts_with oa.1 prefix then [(oa.2, oa.1, explicit)]
                  else [])
               option_strings
    else
      flat_map (fun oa : pystr * action =>
                  if pystr_eqb oa.1 (take 2 t)
                  then [(oa.2, oa.1, Some (drop 2 t))]
                  else if starts_with oa.1 t then [(oa.2, oa.1, None)] else [])
               option_strings
  | _ => []
  end.

Definition digits1 (s : pystr) : bool :=
  negb (pystr_eqb s []) && forallb is_digit s.

(** [-\d+] or [-\d*\.\d+]. *)
Definition negative_number (t : pystr) : bool :=
  match t with
  | c :: r =>
    (c =? dash)%N &&
    (digits1 r ||
     match split_at 0x2E%N r with
     | Some (a, b) => forallb is_digit a && digits1 b
     | None => false
     end)
  | [] => false
  end.

Inductive token :=
| Plain (s : pystr)            (* an argument *)
| Opt (a : action) (option_string : pystr) (explicit : option pystr)
                               (* an option of the parser *)
| Unknown                      (* an option it does not have *)
| Ambiguous
| Dashes.                      (* the first [--] *)

(** [name=value] with [name] an option string. *)
Definition attached (t : pystr) : option token :=
  match split_at 0x3D%N t with
  | Some (name, e) =>
    match exact_option name with
    | Some a => Some (Opt a name (Some e))
    | None => None
    end
  | None => None
  end.

Definition classify (t : pystr) : token :=
  match t with
  | [] => Plain t
  | c :: r =>
    if negb (c =? dash)%N then Plain t
    else match exact_option t, r with
    | Some a, _ => Opt a t None
    | None, [] => Plain t
    | None, _ :: _ =>
      match attached t with
      | Some k => k
      | None =>
        match option_tuples t with
        | _ :: _ :: _ => Ambiguous
        | [(a, o, e)] => Opt a o e
        | [] =>
          if negative_number t then Plain t
          else if bool_decide (0x20%N ∈ t) then Plain t
          else Unknown
        end
      end
    end
  end.

(** The first [--] ends the options: what follows is taken as
    arguments.  The [--] itself stays in the line: it is no argument an
    option can take, and as the parser has no positional argument it is
    one the parser has no use for. *)
Fixpoint classify_all (argv : list pystr) : list token :=
  match argv with
  | [] => []
  | t :: r =>
    if pystr_eqb t (py "--") then Dashes :: (Plain <$> r)
    else classify t :: classify_all r
  end.

Inductive parsed :=
| Namespace (code adjust : arg)
| HelpExit                       (* help printed, exit status 0 *)
| UsageError (reason : pystr).   (* usage printed, exit status 2 *)

(** The value of an option from the one string it was given: the parser
    removes a [--] from the strings of an option, so that the attached
    argument [--] leaves none, and the value is the empty list. *)
Definition value_of (v : pystr) : arg :=
  if pystr_eqb v (py "--") then EmptyList else Str v.

(** The check of [choices] is made on each string of the value. *)
Definition chosen (a : arg) : bool :=
  match a with
  | Str v => str_in v choices
  | EmptyList => true
  end.

(** [-h] with an attached argument: after a one-letter option that takes
    no argument, the argument is read as more one-letter options, and
    [-h] is the only one. *)
Definition help_flags (option_string explicit : pystr) : bool :=
  match option_string with
  | _ :: c1 :: _ =>
    negb (c1 =? dash)%N && negb (pystr_eqb explicit [])
    && forallb (fun c => (c =? 0x68)%N) explicit
  | _ => false
  end.

(** The options in order; [extras] records an argument or option the
    parser has no use for, reported once parsing is over. *)
Fixpoint consume (ts : list token) (code : option arg) (adjust : arg)
    (extras : bool) : parsed :=
  match ts with
  | [] =>
    match code with
    | None => UsageError (py "the following arguments are required: --code")
    | Some c =>
      if extras then UsageError (py "unrecognized arguments")
      else Namespace c adjust
    end
  | Plain _ :: r => consume r code adjust true
  | Unknown :: r => consume r code adjust true
  | Dashes :: r => consume r code adjust true
  | Ambiguous :: _ => UsageError (py "ambiguous option")
  | Opt ActHelp _ None :: _ => HelpExit
  | Opt ActHelp o (Some e) :: _ =>
    if help_flags o e then HelpExit
    else UsageError (py "ignored explicit argument")
  | Opt ActCode _ (Some v) :: r => consume r (Some (value_of v)) adjust extras
  | Opt ActCode _ None :: Plain v :: r =>
    consume r (Some (value_of v)) adjust extras
  | Opt ActCode _ None :: _ => UsageError (py "expected one argument")
  | Opt ActAdjust _ (Some v) :: r =>
    if chosen (value_of v) then consume r code (value_of v) extras
    else UsageError (py "invalid choice")
  | Opt ActAdjust _ None :: Plain v :: r =>
    if chosen (value_of v) then consume r code (value_of v) extras
    else UsageError (py "invalid choice")
  | Opt ActAdjust _ None :: _ => UsageError (py "expected one argument")
  end.

Definition is_ambiguous (t : token) : bool :=
  match t with
  | Ambiguous => true
  | _ => false
  end.

(** [parser.parse_args()].  An ambiguous abbreviation is refused before
    any option is acted on. *)
Definition parse_args (argv : list pystr) : parsed :=
  let ts := classify_all argv in
  if existsb is_ambiguous ts then UsageError (py "ambiguous option")
  else consume ts None (Str default_adjust) false.

(** The strings a line gives to an option, in their order: the one
    attached to it ([--adjust=qfq]), or the argument after it. *)
Definition action_eqb (a b : action) : bool :=
  match a, b with
  | ActHelp, ActHelp | ActCode, ActCode | ActAdjust, ActAdjust => true
  | _, _ => false
  end.

Fixpoint given (a : action) (ts : list token) : list pystr :=
  match ts with
  | [] => []
  | Opt b _ (Some v) :: r => if action_eqb a b then v :: given a r else given a r
  | Opt b _ None :: r =>
    match r with
    | Plain v :: r' => if action_eqb a b then v :: given a r' else given a r'
    | _ => given a r
    end
  | _ :: r => given a r
  end.

Section Main.
Context `{Lib : Library}.

(** Lines 101-109; the result is the exit status of the process: 1 with
    the trace on the error stream when an exception leaves
    [get_stock_data]. *)
Definition main (env : Env) (argv : list pystr) (w : World) : nat * World :=
  match parse_args argv with
  | Namespace code adjust =>
    match get_stock_data_for env code adjust w with
    | (Ok _, w') => (0, w')
    | (Raise e, w') => (1, (eprint (MsgTraceback e) w').2)
    end
  | HelpExit => (0, (print MsgHelp w).2)
  | UsageError reason => (2, (eprint (MsgUsage reason) w).2)
  end.

End Main.

(** ** A library instance for the examples

    Numbers are integers, held as an [int] or as a [float] (taken to be
    exact) and written in decimal, [10] or [10.0]; dates are written
    [YYYY-MM-DD], the empty text and [NaT] are read as [NaT]; the only
    number read as a date is 0, the epoch; every day is in bounds. *)

Inductive sample_number :=
| Int (z : Z)
| Float (z : Z).

Definition parse_int (s : pystr) : option sample_number :=
  match s with
  | c :: r =>
    if (c =? dash)%N then
      if digits1 r then Some (Int (- Z.of_nat (decimal r))%Z) else None
    else if digits1 s then Some (Int (Z.of_nat (decimal s))) else None
  | [] => None
  end.

Definition is_float (x : sample_number) : bool :=
  match x with
  | Int _ => false
  | Float _ => true
  end.

Definition as_float (x : sample_number) : sample_number :=
  match x with
  | Int z => Float z
  | Float z => Float z
  end.

Definition repr_sample (x : sample_number) : pystr :=
  match x with
  | Int z => repr_int z
  | Float z => repr_int z ++ py ".0"
  end.

Definition parse_iso (s : pystr) : option (option date) :=
  let y := take 4 s in
  let m := take 2 (drop 5 s) in
  let d := drop 8 s in
  if pystr_eqb s [] || pystr_eqb s (py "NaT") then Some None
  else if (length s =? 10) && forallb is_digit (y ++ m ++ d)
     && pystr_eqb (take 1 (drop 4 s)) [dash]
     && pystr_eqb (take 1 (drop 7 s)) [dash]
     && calendar_ok (Date (decimal y) (decimal m) (decimal d))
  then Some (Some (Date (decimal y) (decimal m) (decimal d)))
  else None.

Definition epoch_day (x : sample_number) : option date :=
  match x with
  | Int z | Float z => if (z =? 0)%Z then Some (Date 1970 1 1) else None
  end.

Definition path_text (p : list pystr) : pystr :=
  concat ((fun c => 0x2F%N :: c) <$> p).

(** The messages: a label is shown as its [repr] (here, for the labels of
    the script, between quotes), the text [pd.to_datetime] refused and the
    directory [to_csv] cannot write into are shown as they are. *)
Definition sample_str_exn (e : exn) : pystr :=
  match e with
  | ProviderError msg => msg
  | KeyError l => py "'" ++ l ++ py "'"
  | NotASeries _ => py "cannot assemble with duplicate keys"
  | ValueError s => py "Unknown datetime string format, unable to parse: " ++ s
  | OutOfBoundsDatetime s => py "Out of bounds timestamp: " ++ s
  | FileExistsError _ => py "[Errno 17] File exists"
  | FileNotFoundError p | NotADirectoryError p =>
    py "Cannot save file into a non-existent directory: '"
    ++ path_text (removelast p) ++ py "'"
  | IsADirectoryError _ => py "[Errno 21] Is a directory"
  | UnicodeEncodeError => py "'utf-8' codec can't encode character"
  | AttributeError => py "'list' object has no attribute 'lower'"
  end.

Definition sample : Library :=
  {| number := sample_number;
     parse_number := parse_int;
     float_dtype := existsb is_float;
     to_float := as_float;
     parse_datetime := parse_iso;
     number_to_datetime := epoch_day;
     in_bounds := fun _ => true;
     repr_number := repr_sample;
     str_exn := sample_str_exn |}.

(** Frames as the provider returns them today: the eleven source labels
    and the stock code.  In [sample_frame] the second row has none of the
    five essential values; [undated_frame] has a row without a date;
    [unencodable_frame] has a text that UTF-8 cannot encode. *)
Definition sample_columns : list pystr :=
  [py "日期"; py "股票代码"; py "开盘"; py "收盘"; py "最高"; py "最低";
   py "成交量"; py "成交额"; py "振幅"; py "涨跌幅"; py "涨跌额"; py "换手率"].

Definition num (z : Z) : @cell sample := @VNum sample (Int z).

Definition txt (s : string) : @cell sample := @VStr sample (py s).

Definition on (y m d : nat) : @cell sample := @VDate sample (Date y m d).

Definition sample_row (d : @cell sample) (code : pystr) (o c h l v : @cell sample)
  : list (@cell sample) :=
  [d; @VStr sample code; o; c; h; l; v; num 1000; num 3; num 2; num 1;
   num 5].

Definition sample_frame : @DataFrame sample :=
  {| columns := sample_columns;
     rows :=
       [ (0%Z, sample_row (on 2024 1 2) (py "600519")
                 (num 10) (txt "11") (num 12) (num 9) (num 100));
         (1%Z, sample_row (txt "2024-01-03") (py "600519")
                 (@VNaN sample) (txt "x") (@VNaN sample) (@VNaN sample) (txt "abc"));
         (2%Z, sample_row (on 2024 1 4) (py "600519")
                 (@VNaN sample) (txt "12") (@VNaN sample) (@VNaN sample) (@VNaN sample)) ] |}.

Definition undated_frame : @DataFrame sample :=
  {| columns := sample_columns;
     rows :=
       [ (0%Z, sample_row (@VNaN sample) (py "600519")
                 (num 10) (num 11) (num 12) (num 9) (num 100)) ] |}.

Definition unencodable_frame : @DataFrame sample :=
  {| columns := sample_columns;
     rows :=
       [ (0%Z, sample_row (on 2024 1 2) (py "600519")
                 (num 10) (num 11) (num 12) (num 9) (num 100));
         (1%Z, sample_row (on 2024 1 3) [0xD800%N]
                 (num 10) (num 11) (num 12) (num 9) (num 100)) ] |}.

Definition sample_env (df : @DataFrame sample) : @Env sample :=
  {| provider := fun _ => Ok df;
     today := py "20240105";
     script_dir := [py "home"; py "u"] |}.

(** A provider that raises, with the message of its exception. *)
Definition raising_env (msg : pystr) : @Env sample :=
  {| provider := fun _ => Raise (ProviderError msg);
     today := py "20240105";
     script_dir := [py "home"; py "u"] |}.

Definition sample_world : @World sample :=
  {| fs := <[ [py "home"; py "u"] := Dir ]> (<[ [py "home"] := Dir ]> ∅);
     stdout := [];
     stderr := [] |}.

Definition empty_frame : @DataFrame sample := {| columns := []; rows := [] |}.

(** The value of a result, when there is one. *)
Definition value {A} (r : result A) (otherwise : A) : A :=
  match r with
  | Ok a => a
  | Raise _ => otherwise
  end.


Definition sample_normalized : @DataFrame sample :=
  Eval vm_compute in value (normalize sample_frame) sample_frame.

Definition sample_path : path :=
  [py "home"; py "u"; py "A_data"; py "600519_hfq_A_data.csv"].

Definition sample_saved : @World sample :=
  Eval vm_compute in
    (try_block (sample_env sample_frame) (py "600519") (adjust_map (py "hfq"))
       sample_world).2.

Definition sample_started : @World sample :=
  Eval vm_compute in
    (print (MsgFetching (py "600519") (py "qfq")) sample_world).2.

Definition sample_failed : @World sample :=
  Eval vm_compute in
    (try_block (sample_env unencodable_frame) (py "600519")
       (adjust_map (py "qfq")) sample_started).2.

(** A response whose third column already has the label [open], which is
    no source label of the rename table, and holds a text that is no
    number. *)
Definition relabelled_frame : @DataFrame sample :=
  {| columns := <[2 := py "open"]> sample_columns;
     rows :=
       [ (0%Z, sample_row (on 2024 1 2) (py "600519")
                 (txt "abc") (num 11) (num 12) (num 9) (num 100)) ] |}.

Definition relabelled_normalized : @DataFrame sample :=
  Eval vm_compute in value (normalize relabelled_frame) relabelled_frame.

(** The header of the files written for the sample frames. *)
Definition sample_header : list (list N) :=
  bytes_of <$> ["date"; "股票代码"; "open"; "close"; "high"; "low"; "volume";
                "amount"; "amplitude"; "pct_change"; "price_change";
                "turnover"]%string.

(** More frames and worlds for the examples: a response without a date
    column, one with two, one whose date is no date, one without the
    turnover, one whose only row has none of the five essential values;
    and a world where the name of the data directory is taken by a
    regular file. *)
Definition dateless_frame : @DataFrame sample :=
  {| columns := [py "开盘"; py "收盘"];
     rows := [ (0%Z, [num 10; num 11]) ] |}.

Definition twice_dated_frame : @DataFrame sample :=
  {| columns := [py "日期"; py "date"];
     rows := [ (0%Z, [on 2024 1 2; on 2024 1 2]) ] |}.

Definition misdated_frame : @DataFrame sample :=
  {| columns := sample_columns;
     rows :=
       [ (0%Z, sample_row (on 2024 1 2) (py "600519")
                 (num 10) (num 11) (num 12) (num 9) (num 100));
         (1%Z, sample_row (txt "yesterday") (py "600519")
                 (num 10) (num 11) (num 12) (num 9) (num 100)) ] |}.

Definition narrow_frame : @DataFrame sample :=
  {| columns := take 11 sample_columns;
     rows :=
       [ (0%Z, take 11 (sample_row (on 2024 1 2) (py "600519")
                          (num 10) (num 11) (num 12) (num 9) (num 100))) ] |}.

Definition narrow_dated : @DataFrame sample :=
  Eval vm_compute in
    value (format_date (rename rename_table narrow_frame)) narrow_frame.

Definition hollow_frame : @DataFrame sample :=
  {| columns := sample_columns;
     rows :=
       [ (0%Z, sample_row (on 2024 1 2) (py "600519")
                 (@VNaN sample) (txt "x") (@VNaN sample) (@VNaN sample)
                 (txt "abc")) ] |}.

Definition hollow_normalized : @DataFrame sample :=
  Eval vm_compute in value (normalize hollow_frame) hollow_frame.

Definition hollow_saved : @World sample :=
  Eval vm_compute in
    (try_block (sample_env hollow_frame) (py "600519") (adjust_map (py "hfq"))
       sample_world).2.

Definition undated_normalized : @DataFrame sample :=
  Eval vm_compute in value (normalize undated_frame) undated_frame.

Definition undated_lines : list (list (list N)) :=
  Eval vm_compute in
    default [] (mapM encode_line (csv_lines false undated_normalized)).

Definition sample_opened : @World sample :=
  Eval vm_compute in
    (print (MsgFetching (py "600519") (py "hfq")) sample_world).2.

Definition sample_completed : @World sample :=
  Eval vm_compute in
    (try_block (sample_env sample_frame) (py "600519") (adjust_map (py "hfq"))
       sample_opened).2.

Definition blocked_world : @World sample :=
  {| fs := <[ [py "home"; py "u"; py "A_data"] := File [] ]> (fs sample_world);
     stdout := [];
     stderr := [] |}.

Definition sample_escaped : @World sample :=
  Eval vm_compute in
    (try_block (sample_env sample_frame) (sep :: py "600519")
       (adjust_map (py "hfq")) sample_world).2.

(** * Properties *)

(** ** Strings and the adjustment mapper *)

Example py_date_label : py "日期" = [0x65E5; 0x671F]%N.
Proof. reflexivity. Qed.

Example utf8_date_label : utf8_encode (py "日期") = Some (bytes_of "日期").
Proof. reflexivity. Qed.

Example utf8_surrogate : utf8_encode [0xD800%N] = None.
Proof. reflexivity. Qed.

Example strftime_ymd_ex : strftime_ymd (Date 2024 3 7) = py "2024-03-07".
Proof. reflexivity. Qed.

Lemma pystr_eqb_true (a b : pystr) : pystr_eqb a b = true <-> a = b.
Proof. unfold pystr_eqb. apply bool_decide_eq_true. Qed.

Lemma pystr_eqb_false (a b : pystr) : pystr_eqb a b = false <-> a <> b.
Proof. unfold pystr_eqb. apply bool_decide_eq_false. Qed.

Lemma pystr_eqb_refl (a : pystr) : pystr_eqb a a = true.
Proof. by apply pystr_eqb_true. Qed.

Lemma str_in_true (s : pystr) (l : list pystr) : str_in s l = true <-> s ∈ l.
Proof. unfold str_in. apply bool_decide_eq_true. Qed.

Lemma str_in_false (s : pystr) (l : list pystr) : str_in s l = false <-> s ∉ l.
Proof. unfold str_in. apply bool_decide_eq_false. Qed.

(** The mapper has three values. *)
Lemma adjust_map_range (adjust_type : pystr) :
  adjust_map adjust_type ∈ [py ""; py "hfq"; py "qfq"].
Proof.
  unfold adjust_map. apply str_in_true.
  destruct (str_in (lower adjust_type) _); [done|].
  by destruct (pystr_eqb (lower adjust_type) (py "hfq")).
Qed.

(** C2, as amended: the mapper is a total function of the selector's
    lower-case form.  A selector whose lower-case form is one of "none",
    "no", "false" and the empty string maps to the empty parameter; one whose
    lower-case form is "hfq" maps to "hfq"; every other selector, "qfq"
    among them, maps to "qfq". *)
Theorem adjust_map_lower (adjust_type : pystr) :
  (lower adjust_type ∈ [py "none"; py "no"; py "false"; py ""] ->
     adjust_map adjust_type = py "") /\
  (lower adjust_type = py "hfq" -> adjust_map adjust_type = py "hfq") /\
  (lower adjust_type ∉ [py "none"; py "no"; py "false"; py ""] ->
   lower adjust_type <> py "hfq" ->
     adjust_map adjust_type = py "qfq") /\
  adjust_map (py "qfq") = py "qfq" /\
  (adjust_map adjust_type ∈ [py ""; py "hfq"; py "qfq"]).
Proof.
  unfold adjust_map.
  destruct (str_in (lower adjust_type) _) eqn:Hin.
  - apply str_in_true in Hin. split_and!.
    + done.
    + intros Heq. rewrite Heq in Hin. by apply str_in_true in Hin.
    + done.
    + done.
    + by apply str_in_true.
  - apply str_in_false in Hin.
    destruct (pystr_eqb (lower adjust_type) (py "hfq")) eqn:Hh.
    + apply pystr_eqb_true in Hh. split_and!; [done..|by apply str_in_true].
    + apply pystr_eqb_false in Hh. split_and!; [done..|by apply str_in_true].
Qed.

(** C2, as stated, fails: "NONE" is none of the four listed selectors and
    is not "hfq", yet it maps to the empty parameter, not to "qfq". *)
Lemma adjust_map_NONE :
  (py "NONE" ∉ [py "none"; py "no"; py "false"; py ""]) /\
  py "NONE" <> py "hfq" /\
  adjust_map (py "NONE") = py "" /\
  adjust_map (py "NONE") <> py "qfq".
Proof.
  split_and!.
  - intros H. by apply str_in_true in H.
  - by vm_compute.
  - by vm_compute.
  - by vm_compute.
Qed.

(** ** Results *)

Lemma rbind_Ok {A B} (r : result A) (k : A -> result B) (b : B) :
  rbind r k = Ok b <-> exists a, r = Ok a /\ k a = Ok b.
Proof.
  destruct r as [a|e]; simpl; split.
  - eauto.
  - by intros (a' & [= ->] & ?).
  - done.
  - by intros (a' & ? & ?).
Qed.

Lemma rmap_Ok {A B} (f : A -> result B) (l : list A) (l' : list B) :
  rmap f l = Ok l' <-> Forall2 (fun a b => f a = Ok b) l l'.
Proof.
  revert l'. induction l as [|a l IH]; intros l'; simpl.
  - split; [intros [= <-]; constructor | by inversion 1].
  - rewrite rbind_Ok. split.
    + intros (b & Hb & Hr). apply rbind_Ok in Hr as (bs & Hbs & [= <-]).
      constructor; [done | by apply IH].
    + inversion 1 as [|? b ? bs Hb Hbs]; subst. exists b. split; [done|].
      apply rbind_Ok. exists bs. split; [by apply IH | done].
Qed.

(** ** Frames *)

Section Frames.
Context `{Lib : Library}.

Lemma positions_from_spec (label : pystr) (cols : list pystr) (k i : nat) :
  i ∈ positions_from k label cols <->
  exists n, i = k + n /\ cols !! n = Some label.
Proof.
  revert k. induction cols as [|c cols IH]; intros k; simpl.
  - split; [by intros ?%elem_of_nil | by intros (n & _ & ?)].
  - destruct (pystr_eqb c label) eqn:Hc.
    + apply pystr_eqb_true in Hc as ->. rewrite elem_of_cons, IH. split.
      * intros [->|(n & -> & Hn)]; [exists 0 | exists (S n)]; split; (lia || done).
      * intros ([|n] & -> & Hn); [left; lia | right; exists n; split; [lia|done]].
    + apply pystr_eqb_false in Hc. rewrite IH. split.
      * intros (n & -> & Hn). exists (S n). split; [lia|done].
      * intros ([|n] & -> & Hn); [by simplify_eq/= |].
        exists n. split; [lia|done].
Qed.

Lemma positions_spec (label : pystr) (df : DataFrame) (i : nat) :
  i ∈ positions label df <-> columns df !! i = Some label.
Proof.
  unfold positions. rewrite positions_from_spec. split.
  - by intros (n & -> & ?).
  - intros ?. by exists i.
Qed.

Lemma locate_Ok (label : pystr) (df : DataFrame) (i : nat) :
  locate label df = Ok i <-> positions label df = [i].
Proof.
  unfold locate. destruct (positions label df) as [|j [|? ?]]; split; congruence.
Qed.

Lemma locate_column (label : pystr) (df : DataFrame) (i : nat) :
  locate label df = Ok i -> columns df !! i = Some label.
Proof.
  intros H%locate_Ok. apply positions_spec. rewrite H. by apply list_elem_of_singleton.
Qed.

Lemma locate_unique (label : pystr) (df : DataFrame) (i j : nat) :
  locate label df = Ok i -> columns df !! j = Some label -> j = i.
Proof.
  intros H%locate_Ok Hj%positions_spec. rewrite H in Hj.
  by apply list_elem_of_singleton in Hj.
Qed.

Lemma locate_columns (label : pystr) (df df' : DataFrame) :
  columns df' = columns df -> locate label df' = locate label df.
Proof. unfold locate, positions. by intros ->. Qed.

Lemma locate_distinct (a b : pystr) (df : DataFrame) (i j : nat) :
  locate a df = Ok i -> locate b df = Ok j -> a <> b -> i <> j.
Proof.
  intros Ha%locate_column Hb%locate_column Hab ->. congruence.
Qed.

(** Cells *)

Lemma numeric_value_cases (c : cell) :
  (exists x, numeric_value c = VNum x) \/ numeric_value c = VNaN.
Proof.
  destruct c as [s|x| |d]; simpl; [destruct (parse_number s)|..]; eauto.
Qed.

Lemma isna_settle (float : bool) (c : cell) : isna (settle float c) = isna c.
Proof. by destruct c, float. Qed.

Lemma cell_at_insert (i j : nat) (c : cell) (r : list cell) :
  cell_at j (<[i := c]> r) =
  if decide (i = j /\ j < length r) then c else cell_at j r.
Proof.
  unfold cell_at. case_decide as H.
  - destruct H as [-> H]. by rewrite list_lookup_insert_eq.
  - destruct (decide (i = j)) as [->|Hij].
    + rewrite list_insert_ge; [done|lia].
    + by rewrite list_lookup_insert_ne.
Qed.

Lemma cell_at_ge (i : nat) (r : list cell) : length r <= i -> cell_at i r = VNaN.
Proof. intros H. unfold cell_at. by rewrite lookup_ge_None_2. Qed.

Lemma cell_at_lookup (i : nat) (r : list cell) (c : cell) :
  r !! i = Some c -> cell_at i r = c.
Proof. unfold cell_at. by intros ->. Qed.

Lemma cell_at_coerce (i j : nat) (f : cell -> cell) (r : list cell) :
  f VNaN = VNaN ->
  cell_at j (<[i := f (cell_at i r)]> r) =
  if decide (i = j) then f (cell_at j r) else cell_at j r.
Proof.
  intros Hf. rewrite cell_at_insert. destruct (decide (i = j)) as [->|Hij].
  - case_decide as H; [done|]. rewrite cell_at_ge; [done|lia].
  - case_decide as H; [by destruct H | done].
Qed.

Lemma settle_numeric_NaN (float : bool) : settle float (numeric_value VNaN) = VNaN.
Proof. done. Qed.

(** Assigning to a column what a function makes of each of its values. *)
Lemma assign_fmap (i : nat) (f : cell -> cell) (df : DataFrame) :
  rows (assign i (f <$> column i df) df) =
  (fun r : Z * list cell => (r.1, <[i := f (cell_at i r.2)]> r.2)) <$> rows df.
Proof.
  unfold assign, column. cbn [rows]. induction (rows df) as [|r l IH]; [done|].
  cbn [fmap list_fmap zip_with]. f_equal. exact IH.
Qed.

Lemma to_numeric_fmap (col : list cell) :
  to_numeric col =
  (fun c => settle (float_column (numeric_value <$> col)) (numeric_value c)) <$> col.
Proof. unfold to_numeric. by rewrite <- list_fmap_compose. Qed.

Lemma column_insert_ne (i j : nat) (f : Z * list cell -> cell) (df : DataFrame) :
  i <> j ->
  (fun r : Z * list cell => cell_at j r.2) <$>
    ((fun r : Z * list cell => (r.1, <[i := f r]> r.2)) <$> rows df)
  = column j df.
Proof.
  intros Hij. unfold column.
  apply list_eq. intros k. rewrite !list_lookup_fmap.
  destruct (rows df !! k) as [r|]; [|done]. cbn. f_equal. unfold cell_at.
  by rewrite list_lookup_insert_ne.
Qed.

End Frames.

(** ** The steps of the normalizer *)

Section Steps.
Context `{Lib : Library}.

Lemma lookup_coerce (i j : nat) (f : cell -> cell) (r : list cell) :
  <[i := f (cell_at i r)]> r !! j =
  if decide (i = j) then f <$> r !! j else r !! j.
Proof.
  case_decide as Hij; [subst j | by rewrite list_lookup_insert_ne].
  destruct (r !! i) as [c|] eqn:Hi.
  - rewrite list_lookup_insert_eq; [|by eapply lookup_lt_Some].
    by rewrite (cell_at_lookup _ _ _ Hi).
  - rewrite list_insert_ge; [by rewrite Hi | by apply lookup_ge_None].
Qed.

Lemma coerce_column_Ok (col : pystr) (df df' : DataFrame) :
  coerce_column col df = Ok df' ->
  exists i, locate col df = Ok i /\
    columns df' = columns df /\
    column i df' = to_numeric (column i df) /\
    rows df' = (fun r : Z * list cell =>
                  (r.1, <[i := settle (floats i df) (numeric_value (cell_at i r.2))]> r.2))
               <$> rows df.
Proof.
  unfold coerce_column. intros (i & Hi & [= <-])%rbind_Ok. exists i.
  rewrite to_numeric_fmap.
  pose proof (assign_fmap i (fun c => settle (floats i df) (numeric_value c)) df) as Hr.
  unfold floats in *. split_and!; [done..| |exact Hr].
  unfold column at 1. rewrite Hr. unfold column.
  apply list_eq. intros k. rewrite !list_lookup_fmap.
  destruct (rows df !! k) as [r|]; [|done]. cbn. f_equal.
  rewrite (cell_at_coerce i i
             (fun c => settle (float_column (numeric_value <$> column i df))
                         (numeric_value c))) by done.
  by rewrite decide_True.
Qed.

(** The numeric loop: it succeeds only if every label is a column, it
    changes no label and no index, and in each row it changes the values
    under the listed labels, to what [to_numeric] makes of their
    columns. *)
Lemma coerce_columns_Ok (cols : list pystr) (df df' : DataFrame) :
  NoDup cols ->
  coerce_columns cols df = Ok df' ->
  columns df' = columns df /\
  (forall l, l ∈ cols -> exists i, locate l df = Ok i) /\
  Forall2 (fun kr kr' : Z * list cell =>
             kr'.1 = kr.1 /\
             forall j,
               (forall l, l ∈ cols -> columns df !! j = Some l ->
                  kr'.2 !! j =
                  (fun c => settle (floats j df) (numeric_value c)) <$> kr.2 !! j) /\
               ((forall l, l ∈ cols -> columns df !! j <> Some l) ->
                  kr'.2 !! j = kr.2 !! j))
          (rows df) (rows df').
Proof.
  intros Hnd. revert df. induction Hnd as [|col cols Hcol Hnd IH]; intros df; simpl.
  - intros [= <-]. split_and!; [done | by intros l ?%elem_of_nil |].
    apply Forall2_same_length_lookup_2; [done|].
    intros n kr kr' H1 H2. simplify_eq. split; [done|]. intros j. split; [|done].
    by intros l ?%elem_of_nil.
  - intros (df1 & H1 & H2)%rbind_Ok.
    apply coerce_column_Ok in H1 as (i & Hi & Hc1 & _ & Hr1).
    apply IH in H2 as (Hc & Hloc & Hrows).
    split_and!.
    + congruence.
    + intros l [->|Hl]%elem_of_cons; [by exists i|].
      destruct (Hloc l Hl) as [k Hk]. exists k.
      by rewrite <- (locate_columns l df df1).
    + assert (forall j, i <> j -> floats j df1 = floats j df) as Hfl.
      { intros j Hij. unfold floats. f_equal. f_equal.
        unfold column at 1. rewrite Hr1. by apply column_insert_ne. }
      rewrite Hr1 in Hrows. apply Forall2_fmap_l in Hrows.
      eapply Forall2_impl; [exact Hrows|]. simpl.
      intros kr kr' [Hk Hj]. split; [done|]. intros j.
      destruct (Hj j) as [Hin Hout]. rewrite Hc1 in Hin, Hout.
      rewrite !(lookup_coerce i j
                  (fun c => settle (floats i df) (numeric_value c))) in Hin, Hout.
      split.
      * intros l [->|Hl]%elem_of_cons Hcolj.
        -- assert (j = i) as -> by eauto using locate_unique.
           rewrite decide_True in Hout by done.
           apply Hout. intros l Hl ?. by simplify_eq.
        -- assert (i <> j) as Hij.
           { intros ->. apply locate_column in Hi. by simplify_eq. }
           rewrite (Hin l Hl Hcolj), decide_False by done.
           by rewrite Hfl.
      * intros Hnot. rewrite Hout.
        -- rewrite decide_False; [done|]. intros ->.
           eapply (Hnot col); [by left | by apply locate_column].
        -- intros l Hl. apply Hnot. by right.
Qed.

Lemma format_date_Ok (df df' : DataFrame) :
  format_date df = Ok df' ->
  exists i, locate (py "date") df = Ok i /\
    columns df' = columns df /\
    Forall2 (fun kr kr' : Z * list cell =>
               exists t, to_datetime (cell_at i kr.2) = Ok t /\
                         kr' = (kr.1, <[i := strftime t]> kr.2))
            (rows df) (rows df').
Proof.
  unfold format_date. intros (i & Hi & H)%rbind_Ok.
  apply rbind_Ok in H as (rs & Hrs & [= <-]). exists i. split_and!; [done..|].
  apply rmap_Ok in Hrs. simpl. eapply Forall2_impl; [exact Hrs|]. simpl.
  intros kr kr' (t & Ht & [= <-])%rbind_Ok. by exists t.
Qed.



Lemma dropna_Ok (subset : list pystr) (df df' : DataFrame) :
  dropna subset df = Ok df' ->
  exists ps, subset_positions subset df = Ok ps /\
    columns df' = columns df /\
    rows df' = List.filter (fun r : Z * list cell => negb (all_missing ps r.2))
                 (rows df).
Proof.
  unfold dropna. intros (ps & Hps & [= <-])%rbind_Ok. by exists ps.
Qed.

Lemma filter_sublist {A} (f : A -> bool) (l : list A) :
  List.filter f l `sublist_of` l.
Proof.
  induction l as [|a l IH]; simpl; [done|].
  destruct (f a); by constructor.
Qed.


End Steps.

(** ** The normalizer *)

Section Normalizer.
Context `{Lib : Library}.


Lemma numeric_cols_NoDup : NoDup numeric_cols.
Proof. apply (bool_decide_unpack _). by vm_compute. Qed.


Lemma coerced_Ok (df dfc : DataFrame) :
  coerced df = Ok dfc ->
  exists dfd, format_date (rename rename_table df) = Ok dfd /\
              coerce_columns numeric_cols dfd = Ok dfc.
Proof. unfold coerced. by intros ?%rbind_Ok. Qed.




End Normalizer.

(** ** Dates as text *)

Lemma digits4 (y : nat) :
  y < 10 * 1000 ->
  exists a b c d, a < 10 /\ b < 10 /\ c < 10 /\ d < 10 /\
    y = 1000 * a + 100 * b + 10 * c + d /\
    pad4 y = [N.of_nat (48 + a); N.of_nat (48 + b);
              N.of_nat (48 + c); N.of_nat (48 + d)].
Proof.
  intros Hy. unfold pad4, digit.
  assert (y / 1000 = y / 10 / 10 / 10) as -> by (by rewrite !Nat.Div0.div_div).
  assert (y / 100 = y / 10 / 10) as -> by (by rewrite !Nat.Div0.div_div).
  pose proof (Nat.div_mod_eq y 10) as E0.
  pose proof (Nat.div_mod_eq (y / 10) 10) as E1.
  pose proof (Nat.div_mod_eq (y / 10 / 10) 10) as E2.
  pose proof (Nat.div_mod_eq (y / 10 / 10 / 10) 10) as E3.
  pose proof (Nat.mod_upper_bound y 10) as B0.
  pose proof (Nat.mod_upper_bound (y / 10) 10) as B1.
  pose proof (Nat.mod_upper_bound (y / 10 / 10) 10) as B2.
  pose proof (Nat.mod_upper_bound (y / 10 / 10 / 10) 10) as B3.
  exists ((y / 10 / 10 / 10) mod 10), ((y / 10 / 10) mod 10),
         ((y / 10) mod 10), (y mod 10).
  revert E0 E1 E2 E3 B0 B1 B2 B3.
  generalize (y / 10 / 10 / 10 mod 10). generalize (y / 10 / 10 / 10 / 10).
  generalize (y / 10 / 10 / 10). generalize (y / 10 / 10 mod 10).
  generalize (y / 10 / 10). generalize (y / 10 mod 10). generalize (y / 10).
  generalize (y mod 10). intros d q1 c q2 b q3 q4 a. intros.
  split_and!; try done; lia.
Qed.

Lemma digits2 (m : nat) :
  m < 100 ->
  exists a b, a < 10 /\ b < 10 /\ m = 10 * a + b /\
    pad2 m = [N.of_nat (48 + a); N.of_nat (48 + b)].
Proof.
  intros Hm. unfold pad2, digit.
  pose proof (Nat.div_mod_eq m 10) as E0.
  pose proof (Nat.div_mod_eq (m / 10) 10) as E1.
  pose proof (Nat.mod_upper_bound m 10) as B0.
  pose proof (Nat.mod_upper_bound (m / 10) 10) as B1.
  exists ((m / 10) mod 10), (m mod 10).
  revert E0 E1 B0 B1.
  generalize (m / 10 mod 10). generalize (m / 10 / 10). generalize (m / 10).
  generalize (m mod 10). intros b q1 q2 a. intros.
  split_and!; try done; lia.
Qed.

Lemma str_leb_digit (a b : nat) (ra rb : pystr) :
  str_leb (N.of_nat (48 + a) :: ra) (N.of_nat (48 + b) :: rb) =
  (a <? b) || ((a =? b) && str_leb ra rb).
Proof.
  cbn [str_leb].
  assert ((N.of_nat (48 + a) <? N.of_nat (48 + b))%N = (a <? b)) as ->.
  { destruct (Nat.ltb_spec a b); [apply N.ltb_lt | apply N.ltb_ge]; lia. }
  assert ((N.of_nat (48 + a) =? N.of_nat (48 + b))%N = (a =? b)) as ->.
  { destruct (Nat.eqb_spec a b); [apply N.eqb_eq | apply N.eqb_neq]; lia. }
  done.
Qed.

Lemma four_digits_bounds (d : date) :
  four_digits d = true ->
  year d < 10 * 1000 /\ 1 <= month d <= 12 /\ 1 <= day d <= 31.
Proof.
  unfold four_digits. intros H.
  apply andb_prop in H as [H H3]. apply andb_prop in H as [H1 H2].
  unfold calendar_ok in H1.
  apply andb_prop in H1 as [H1 Hd2]. apply andb_prop in H1 as [H1 Hd1].
  apply andb_prop in H1 as [Hm1 Hm2].
  apply Nat.leb_le in Hm1, Hm2, Hd1, Hd2.
  assert (days_in_month (year d) (month d) <= 31).
  { unfold days_in_month. repeat case_match; lia. }
  destruct (Nat.ltb_spec (year d) (10 * 1000)) as [Hlt|Hge]; [lia|done].
Qed.

Lemma str_leb_dash (x y : pystr) :
  str_leb (0x2D%N :: x) (0x2D%N :: y) = str_leb x y.
Proof. done. Qed.

(** Texts of days compare as the days do. *)
Lemma strftime_ymd_mono (d1 d2 : date) :
  four_digits d1 = true -> four_digits d2 = true ->
  date_leb d1 d2 = true ->
  str_leb (strftime_ymd d1) (strftime_ymd d2) = true.
Proof.
  intros (Hy1 & Hm1 & Hd1)%four_digits_bounds (Hy2 & Hm2 & Hd2)%four_digits_bounds.
  unfold date_leb. intros Hle.
  assert (year d1 < year d2 \/
          year d1 = year d2 /\
          (month d1 < month d2 \/ month d1 = month d2 /\ day d1 <= day d2)) as Hord.
  { destruct (Nat.ltb_spec (year d1) (year d2)); [by left|right].
    destruct (Nat.eqb_spec (year d1) (year d2)); [|done]. split; [done|].
    destruct (Nat.ltb_spec (month d1) (month d2)); [by left|right].
    destruct (Nat.eqb_spec (month d1) (month d2)); [|done]. split; [done|].
    destruct (Nat.leb_spec (day d1) (day d2)); done. }
  clear Hle. unfold strftime_ymd.
  destruct (digits4 _ Hy1) as (a1 & b1 & c1 & e1 & ? & ? & ? & ? & Ey1 & ->).
  destruct (digits4 _ Hy2) as (a2 & b2 & c2 & e2 & ? & ? & ? & ? & Ey2 & ->).
  destruct (digits2 (month d1)) as (f1 & g1 & ? & ? & Em1 & ->); [lia|].
  destruct (digits2 (month d2)) as (f2 & g2 & ? & ? & Em2 & ->); [lia|].
  destruct (digits2 (day d1)) as (h1 & i1 & ? & ? & Ed1 & ->); [lia|].
  destruct (digits2 (day d2)) as (h2 & i2 & ? & ? & Ed2 & ->); [lia|].
  change (py "-") with [0x2D%N]. cbn [app].
  rewrite !str_leb_digit, str_leb_dash, !str_leb_digit, str_leb_dash,
    !str_leb_digit.
  cbn [str_leb].
  repeat match goal with
  | |- context [?x <? ?y] =>
      destruct (Nat.ltb_spec x y); cbn [orb andb]; [done || lia |]
  | |- context [?x =? ?y] =>
      destruct (Nat.eqb_spec x y); cbn [orb andb]; [| exfalso; lia]
  end.
  all: lia || done.
Qed.






(** ** The normalizer, row by row *)

Section Rows.
Context `{Lib : Library}.

Lemma lookup_insert_const (i j : nat) (c : cell) (r : list cell) :
  <[i := c]> r !! j = if decide (i = j) then (fun _ => c) <$> r !! j else r !! j.
Proof.
  case_decide as Hij; [subst j | by rewrite list_lookup_insert_ne].
  destruct (r !! i) as [c'|] eqn:Hi.
  - rewrite list_lookup_insert_eq; [done | by eapply lookup_lt_Some].
  - rewrite list_insert_ge; [by rewrite Hi | by apply lookup_ge_None].
Qed.

Lemma date_not_numeric : py "date" ∉ numeric_cols.
Proof. by apply str_in_false. Qed.

Lemma to_datetime_ok (c : cell) (d : date) :
  to_datetime c = Ok (Some d) -> four_digits d = true.
Proof.
  unfold to_datetime, as_timestamp. intros H.
  repeat case_match; simplify_eq; by repeat match goal with
  | H : _ && _ = true |- _ => apply andb_prop in H as [? ?]
  end.
Qed.

(** The normalizer leaves the labels as the renaming made them, makes of
    each fetched row its normalized row, in order, and keeps a
    subsequence of those. *)
Lemma normalize_Ok (df out : DataFrame) :
  normalize df = Ok out ->
  exists i dfc,
    locate (py "date") (rename rename_table df) = Ok i /\
    coerced df = Ok dfc /\
    columns dfc = rename_label rename_table <$> columns df /\
    columns out = columns dfc /\
    Forall2 (normalized_row i (columns dfc)) (rows df) (rows dfc) /\
    rows out `sublist_of` rows dfc.
Proof.
  unfold normalize. intros (dfc & Hc & Hd)%rbind_Ok.
  pose proof Hc as (dfd & Hf & Hn)%coerced_Ok.
  apply format_date_Ok in Hf as (i & Hi & Hcd & Hrd).
  apply coerce_columns_Ok in Hn as (Hcc & _ & Hrc); [|apply numeric_cols_NoDup].
  apply dropna_Ok in Hd as (ps & _ & Hco & Hro).
  exists i, dfc. split_and!; [done | done | by rewrite Hcc, Hcd | done | |].
  - clear Hro Hco Hc.
    change (rows (rename rename_table df)) with (rows df) in Hrd.
    revert Hrc. generalize (rows dfc). revert Hrd. generalize (rows dfd).
    generalize (rows df). intros r1 r2 H12.
    induction H12 as [|kr kr1 l1 l2 H1 _ IH].
    + intros l3 ->%Forall2_nil_inv_l. constructor.
    + intros l3 (kr' & l3' & H3 & H3' & ->)%Forall2_cons_inv_l.
      constructor; [|by apply IH].
      destruct H1 as (t & Ht & ->). destruct H3 as [Hk Hj]. cbn [fst snd] in *.
      split; [done|]. exists t. split; [done|]. intros j.
      destruct (Hj j) as [Hin Hout]. rewrite !lookup_insert_const in Hin, Hout.
      rewrite Hcc, Hcd. rewrite Hcd in Hin, Hout.
      assert (forall l, l ∈ numeric_cols ->
                columns (rename rename_table df) !! i <> Some l) as Hdate.
      { intros l Hl Hcol. apply locate_column in Hi.
        rewrite Hi in Hcol. injection Hcol as <-. by apply date_not_numeric. }
      split_and!.
      * intros ->. rewrite decide_True in Hout by done. by apply Hout.
      * intros l Hl Hcol. rewrite (Hin l Hl Hcol).
        rewrite decide_False; [by eexists|]. intros ->. by eapply Hdate.
      * intros Hji Hnot. rewrite Hout by done. by rewrite decide_False.
  - rewrite Hro. apply filter_sublist.
Qed.

End Rows.

(** ** Order *)

Lemma date_leb_spec (a b : date) :
  date_leb a b = true <->
  year a < year b \/
  year a = year b /\ (month a < month b \/ month a = month b /\ day a <= day b).
Proof.
  unfold date_leb.
  destruct (Nat.ltb_spec (year a) (year b)),
           (Nat.eqb_spec (year a) (year b)),
           (Nat.ltb_spec (month a) (month b)),
           (Nat.eqb_spec (month a) (month b)),
           (Nat.leb_spec (day a) (day b)); cbn [orb andb]; split; (done || lia).
Qed.

Lemma date_leb_trans (a b c : date) :
  date_leb a b = true -> date_leb b c = true -> date_leb a c = true.
Proof. rewrite !date_leb_spec. lia. Qed.

Lemma StronglySorted_sublist {A} (R : relation A) (l k : list A) :
  StronglySorted R l -> k `sublist_of` l -> StronglySorted R k.
Proof.
  intros Hl Hk. revert Hl. induction Hk as [|x k l Hk IH|x k l Hk IH].
  - done.
  - intros [Hl Hx]%StronglySorted_inv. constructor; [by apply IH|].
    apply Forall_forall. intros y Hy. rewrite Forall_forall in Hx.
    apply Hx. by eapply elem_of_sublist.
  - intros [Hl Hx]%StronglySorted_inv. by apply IH.
Qed.

Lemma StronglySorted_Forall2 {A B} (R : relation A) (R' : relation B)
    (P : A -> B -> Prop) (l : list A) (l' : list B) :
  (forall a b a' b', R a b -> P a a' -> P b b' -> R' a' b') ->
  StronglySorted R l -> Forall2 P l l' -> StronglySorted R' l'.
Proof.
  intros HR Hl HP. revert Hl. induction HP as [|a a' l l' Ha HP IH].
  - constructor.
  - intros [Hl Hx]%StronglySorted_inv. constructor; [by apply IH|].
    apply Forall_forall. intros b' Hb'.
    apply list_elem_of_lookup in Hb' as [n Hn].
    destruct (Forall2_lookup_r _ _ _ _ _ HP Hn) as (b & Hb & Hbb).
    eapply HR; [|done..]. rewrite Forall_forall in Hx. apply Hx.
    apply list_elem_of_lookup. by exists n.
Qed.

Section Order.
Context `{Lib : Library}.

#[local] Instance by_date_trans (i : nat) : Transitive (by_date i).
Proof.
  intros a b c (da & db & Ha & Hb & Hab) (db' & dc & Hb' & Hc & Hbc).
  rewrite Hb in Hb'. injection Hb' as <-.
  exists da, dc. split_and!; [done..|]. by eapply date_leb_trans.
Qed.

Lemma date_of_Some (i : nat) (kr : Z * list cell) (d : date) :
  date_of i kr = Some d ->
  to_datetime (cell_at i kr.2) = Ok (Some d) /\ is_Some (kr.2 !! i).
Proof.
  unfold date_of. destruct (to_datetime (cell_at i kr.2)) as [t|e] eqn:Ht; [|done].
  intros ->. split; [done|]. unfold cell_at in Ht.
  destruct (kr.2 !! i); [by eexists | done].
Qed.

(** The text the normalizer leaves for a row that has a date. *)
Lemma normalized_row_date (i : nat) (cols : list pystr)
    (kr kr' : Z * list cell) (d : date) :
  normalized_row i cols kr kr' -> date_of i kr = Some d ->
  cell_at i kr'.2 = VStr (strftime_ymd d) /\ four_digits d = true.
Proof.
  intros (_ & t & Ht & Hj) (Hd & [c Hc])%date_of_Some.
  rewrite Hd in Ht. injection Ht as <-.
  destruct (Hj i) as (Hi & _). unfold cell_at. rewrite Hi, Hc by done.
  split; [done | by eapply to_datetime_ok].
Qed.

(** C10: the normalizer never reorders rows.  Its rows are a subsequence
    of the fetched rows, each normalized, in their order (so are their
    index labels); and when the fetched rows are in ascending order of
    their dates, the rows it returns are in ascending order of the date
    texts. *)
Theorem normalize_keeps_order (df out : DataFrame) :
  normalize df = Ok out ->
  exists i mid,
    locate (py "date") (rename rename_table df) = Ok i /\
    Forall2 (normalized_row i (columns out)) (rows df) mid /\
    rows out `sublist_of` mid /\
    (fst <$> rows out) `sublist_of` (fst <$> rows df) /\
    (Sorted (by_date i) (rows df) -> Sorted (by_date_text i) (rows out)).
Proof.
  intros (i & dfc & Hi & _ & _ & Hco & Hrows & Hsub)%normalize_Ok.
  exists i, (rows dfc). rewrite Hco. split_and!; [done..| |].
  - assert (fst <$> rows dfc = fst <$> rows df) as <-; [|by apply fmap_sublist].
    clear Hsub. induction Hrows as [|kr kr' l l' [Hk _] _ IH]; [done|].
    rewrite !fmap_cons. by f_equal.
  - intros Hs%Sorted_StronglySorted; [|apply _].
    apply StronglySorted_Sorted. eapply StronglySorted_sublist; [|exact Hsub].
    eapply StronglySorted_Forall2; [|exact Hs|exact Hrows].
    intros a b a' b' (da & db & Ha & Hb & Hab) Haa Hbb.
    destruct (normalized_row_date _ _ _ _ _ Haa Ha) as [Ha' Hoka].
    destruct (normalized_row_date _ _ _ _ _ Hbb Hb) as [Hb' Hokb].
    exists (strftime_ymd da), (strftime_ymd db).
    split_and!; [done..|]. by apply strftime_ymd_mono.
Qed.

End Order.

(** ** The file system *)

Lemma same_files_refl (f : gmap path node) : same_files f f.
Proof. by intros q c. Qed.

Lemma same_files_trans (f g h : gmap path node) :
  same_files f g -> same_files g h -> same_files f h.
Proof. intros H1 H2 q c. etrans; [apply H2 | apply H1]. Qed.

Lemma same_files_mkdir (f : gmap path node) (p : path) :
  (forall c, f !! p <> Some (File c)) -> same_files f (<[p := Dir]> f).
Proof.
  intros Hp q c. destruct (decide (p = q)) as [<-|Hpq].
  - rewrite lookup_insert_eq. split; [done|]. intros ?. by destruct (Hp c).
  - by rewrite lookup_insert_ne.
Qed.

Lemma mkdirs_files (base : path) (names : list pystr) (f f' : gmap path node)
    (r : result unit) :
  mkdirs base names f = (r, f') -> same_files f f'.
Proof.
  revert base f. induction names as [|n names IH]; intros base f; simpl.
  - intros [= _ <-]. apply same_files_refl.
  - destruct names as [|n' names].
    + destruct (f !! (base ++ [n])) eqn:Hn; intros [= _ <-].
      * apply same_files_refl.
      * apply same_files_mkdir. intros c Hc.
        by pose proof (eq_trans (eq_sym Hn) Hc).
    + destruct (f !! (base ++ [n])) as [[|c]|] eqn:Hn.
      * apply IH.
      * intros [= _ <-]. apply same_files_refl.
      * intros H%IH. eapply same_files_trans; [|exact H].
        apply same_files_mkdir. intros c Hc.
        by pose proof (eq_trans (eq_sym Hn) Hc).
Qed.

Lemma write_lines_complete (ls : list (list pystr)) (content : list (list (list N))) :
  write_lines ls = (content, true) <-> mapM encode_line ls = Some content.
Proof.
  revert content. induction ls as [|l ls IH]; intros content; simpl.
  - split; intros [= <-]; done.
  - destruct (encode_line l) as [bl|]; simpl; [|done].
    destruct (write_lines ls) as [w ok] eqn:Hw. destruct ok.
    + rewrite (proj1 (IH w) eq_refl). simpl. split; intros [= <-]; done.
    + destruct (mapM encode_line ls) as [k|] eqn:Hk; simpl; [|done].
      by pose proof (proj2 (IH k) eq_refl).
Qed.

(** A write that fails leaves the lines before the first one that
    cannot be encoded. *)
Lemma write_lines_partial (ls : list (list pystr)) (content : list (list (list N))) :
  write_lines ls = (content, false) ->
  exists pre bad post,
    ls = pre ++ bad :: post /\
    mapM encode_line pre = Some content /\
    encode_line bad = None.
Proof.
  revert content. induction ls as [|l ls IH]; intros content; simpl; [done|].
  destruct (encode_line l) as [bl|] eqn:Hl.
  - destruct (write_lines ls) as [w ok]. intros [= <- ->].
    destruct (IH w eq_refl) as (pre & bad & post & -> & Hpre & Hbad).
    exists (l :: pre), bad, post. split_and!; [done| |done].
    simpl. by rewrite Hl, Hpre.
  - intros [= <-]. by exists [], l, ls.
Qed.

Lemma utf8_ok_Some (s : pystr) (b : list N) : utf8_encode s = Some b -> utf8_ok s = true.
Proof. intros H. unfold utf8_ok. apply bool_decide_eq_true. by eexists. Qed.

Lemma mapM_utf8_ok (l : list pystr) (bl : list (list N)) :
  mapM utf8_encode l = Some bl -> forallb utf8_ok l = true.
Proof.
  intros H%mapM_Some. apply forallb_forall. intros x Hx%list_elem_of_In.
  apply list_elem_of_lookup in Hx as [k Hk].
  destruct (Forall2_lookup_l _ _ _ _ _ H Hk) as (b & _ & Hb).
  by eapply utf8_ok_Some.
Qed.

Lemma forallb_app {A} (f : A -> bool) (l k : list A) :
  forallb f (l ++ k) = forallb f l && forallb f k.
Proof. induction l as [|a l IH]; [done|]. cbn. by rewrite IH, andb_assoc. Qed.

Lemma forallb_concat {A} (f : A -> bool) (ls : list (list A)) :
  Forall (fun l => forallb f l = true) ls -> forallb f (concat ls) = true.
Proof.
  induction 1 as [|l ls Hl _ IH]; [done|]. cbn. by rewrite forallb_app, Hl, IH.
Qed.

Section Run.
Context `{Lib : Library}.

Lemma print_eq (m : message) (w : World) :
  print m w =
  if printable m then
    (Ok tt, {| fs := fs w; stdout := stdout w ++ [m]; stderr := stderr w |})
  else (Raise UnicodeEncodeError, w).
Proof. done. Qed.

(** The preview of a table whose lines UTF-8 encodes can be printed. *)
Lemma preview_printable (df : DataFrame) (content : list (list (list N))) :
  mapM encode_line (csv_lines false df) = Some content ->
  printable (MsgPreview (head df)) = true.
Proof.
  intros H%mapM_Some. unfold csv_lines in H. cbn [app] in H.
  apply Forall2_cons_inv_l in H as (header & body & Hh & Hb & ->).
  unfold printable, texts, head. cbn [columns rows].
  rewrite forallb_app. apply andb_true_iff. split.
  - by eapply mapM_utf8_ok.
  - apply forallb_concat, Forall_fmap, Forall_forall. intros kr Hkr. cbn.
    apply list_elem_of_lookup in Hkr as [k Hk].
    assert (rows df !! k = Some kr) as Hk'.
    { apply lookup_take_Some in Hk. tauto. }
    apply Forall2_fmap_l in Hb.
    destruct (Forall2_lookup_l _ _ _ _ _ Hb Hk') as (line & _ & Hline).
    by eapply mapM_utf8_ok.
Qed.

(** [save], step by step: the directory, the file, the messages. *)
Lemma save_eq (env : Env) (symbol ak_adjust : pystr) (df : DataFrame) (w : World) :
  let dd := os_path_join (script_dir env) (py "A_data") in
  let p := os_path_join dd (filename symbol ak_adjust) in
  save env symbol ak_adjust df w =
  match (if exists_ (fs w) dd then (Ok tt, w)
         else match mkdirs [] dd (fs w) with
              | (Ok _, f) =>
                print (MsgDirCreated dd)
                  {| fs := f; stdout := stdout w; stderr := stderr w |}
              | (Raise e, f) =>
                (Raise e, {| fs := f; stdout := stdout w; stderr := stderr w |})
              end) with
  | (Raise e, w1) => (Raise e, w1)
  | (Ok _, w1) =>
    match open_w (fs w1) p with
    | Raise e => (Raise e, w1)
    | Ok _ =>
      match mapM encode_line (csv_lines false df) with
      | None =>
        (Raise UnicodeEncodeError,
         {| fs := <[p := File (write_lines (csv_lines false df)).1]> (fs w1);
            stdout := stdout w1; stderr := stderr w1 |})
      | Some content =>
        if printable (MsgSaved p) then
          (Ok (Completed p),
           {| fs := <[p := File content]> (fs w1);
              stdout := stdout w1 ++ [MsgSaved p; MsgRowCount (len df);
                                      MsgPreviewTitle; MsgPreview (head df)];
              stderr := stderr w1 |})
        else
          (Raise UnicodeEncodeError,
           {| fs := <[p := File content]> (fs w1);
              stdout := stdout w1; stderr := stderr w1 |})
      end
    end
  end.
Proof.
  intros dd p.
  unfold save, mbind, M_bind, bind, mret, M_ret, ret, path_exists.
  cbn beta iota zeta. fold dd. fold p.
  assert (forall w1 : World,
            (let (r, w') := to_csv df p false w1 in
             match r with
             | Ok _ =>
               let (r0, w'0) := print (MsgSaved p) w' in
               match r0 with
               | Ok _ =>
                 let (r1, w'1) := print (MsgRowCount (len df)) w'0 in
                 match r1 with
                 | Ok _ =>
                   let (r2, w'2) := print MsgPreviewTitle w'1 in
                   match r2 with
                   | Ok _ =>
                     let (r3, w'3) := print (MsgPreview (head df)) w'2 in
                     match r3 with
                     | Ok _ => (Ok (Completed p), w'3)
                     | Raise e => (Raise e, w'3)
                     end
                   | Raise e => (Raise e, w'2)
                   end
                 | Raise e => (Raise e, w'1)
                 end
               | Raise e => (Raise e, w'0)
               end
             | Raise e => (Raise e, w')
             end) =
            match open_w (fs w1) p with
            | Raise e => (Raise e, w1)
            | Ok _ =>
              match mapM encode_line (csv_lines false df) with
              | None =>
                (Raise UnicodeEncodeError,
                 {| fs := <[p := File (write_lines (csv_lines false df)).1]> (fs w1);
                    stdout := stdout w1; stderr := stderr w1 |})
              | Some content =>
                if printable (MsgSaved p) then
                  (Ok (Completed p),
                   {| fs := <[p := File content]> (fs w1);
                      stdout := stdout w1 ++ [MsgSaved p; MsgRowCount (len df);
                                              MsgPreviewTitle; MsgPreview (head df)];
                      stderr := stderr w1 |})
                else
                  (Raise UnicodeEncodeError,
                   {| fs := <[p := File content]> (fs w1);
                      stdout := stdout w1; stderr := stderr w1 |})
              end
            end) as Hcsv.
  { intros w1. unfold to_csv. destruct (open_w (fs w1) p) as [[]|e]; [|done].
    destruct (write_lines (csv_lines false df)) as [written ok] eqn:Hwl.
    destruct ok.
    - apply write_lines_complete in Hwl. rewrite Hwl.
      unfold print.
      destruct (printable (MsgSaved p)); [|done].
      change (printable (MsgRowCount (len df))) with true.
      change (printable MsgPreviewTitle) with true.
      rewrite (preview_printable _ _ Hwl).
      cbn [fs stdout stderr]. by rewrite <- !app_assoc.
    - destruct (mapM encode_line (csv_lines false df)) as [c|] eqn:Hm; [|done].
      apply write_lines_complete in Hm. by rewrite Hm in Hwl. }
  destruct (exists_ (fs w) dd); [apply Hcsv|].
  unfold makedirs. destruct (mkdirs [] dd (fs w)) as [[[]|e] f1]; [|done].
  destruct (print (MsgDirCreated dd) _) as [[[]|e] w1]; [apply Hcsv|done].
Qed.

(** What [save] leaves: either it raised without touching a regular
    file, or the output file was opened and holds lines of the table:
    those before the one that could not be encoded when the write raised,
    all of them otherwise, whether [save] returned or the print of the
    path raised. *)
Lemma save_inv (env : Env) (symbol ak_adjust : pystr) (df : DataFrame)
    (w w' : World) (r : result exit) :
  save env symbol ak_adjust df w = (r, w') ->
  let p := os_path_join (os_path_join (script_dir env) (py "A_data"))
             (filename symbol ak_adjust) in
  (exists e, r = Raise e /\ same_files (fs w) (fs w')) \/
  (exists content ok,
     write_lines (csv_lines false df) = (content, ok) /\
     r = (if ok && printable (MsgSaved p) then Ok (Completed p)
          else Raise UnicodeEncodeError) /\
     fs w' !! p = Some (File content) /\
     forall q c, q <> p ->
       (fs w' !! q = Some (File c) <-> fs w !! q = Some (File c))).
Proof.
  rewrite save_eq. cbn zeta.
  set (dd := os_path_join (script_dir env) (py "A_data")).
  set (p := os_path_join dd (filename symbol ak_adjust)).
  assert (forall w1 : World, same_files (fs w) (fs w1) ->
            match open_w (fs w1) p with
            | Raise e => (Raise e, w1)
            | Ok _ =>
              match mapM encode_line (csv_lines false df) with
              | None =>
                (Raise UnicodeEncodeError,
                 {| fs := <[p := File (write_lines (csv_lines false df)).1]> (fs w1);
                    stdout := stdout w1; stderr := stderr w1 |})
              | Some content =>
                if printable (MsgSaved p) then
                  (Ok (Completed p),
                   {| fs := <[p := File content]> (fs w1);
                      stdout := stdout w1 ++ [MsgSaved p; MsgRowCount (len df);
                                              MsgPreviewTitle; MsgPreview (head df)];
                      stderr := stderr w1 |})
                else
                  (Raise UnicodeEncodeError,
                   {| fs := <[p := File content]> (fs w1);
                      stdout := stdout w1; stderr := stderr w1 |})
              end
            end = (r, w') ->
            (exists e, r = Raise e /\ same_files (fs w) (fs w')) \/
            (exists content ok,
               write_lines (csv_lines false df) = (content, ok) /\
               r = (if ok && printable (MsgSaved p) then Ok (Completed p)
                    else Raise UnicodeEncodeError) /\
               fs w' !! p = Some (File content) /\
               forall q c, q <> p ->
                 (fs w' !! q = Some (File c) <-> fs w !! q = Some (File c))))
    as Hcsv.
  { intros w1 Hw1.
    destruct (open_w (fs w1) p) as [[]|e] eqn:Ho.
    2:{ intros [= <- <-]. left. by exists e. }
    destruct (mapM encode_line (csv_lines false df)) as [content|] eqn:Hm.
    - apply write_lines_complete in Hm.
      destruct (printable (MsgSaved p)); intros [= <- <-]; right;
        exists content, true; cbn [fs andb];
        (split_and!; [done | done | by rewrite lookup_insert_eq |]);
        intros q c Hq; rewrite lookup_insert_ne by done; apply Hw1.
    - destruct (write_lines (csv_lines false df)) as [content ok] eqn:Hwl.
      destruct ok; [apply write_lines_complete in Hwl; congruence|].
      intros [= <- <-]. right. exists content, false. cbn [fs andb fst].
      split_and!; [done | done | by rewrite lookup_insert_eq |].
      intros q c Hq. rewrite lookup_insert_ne by done. apply Hw1. }
  destruct (exists_ (fs w) dd) eqn:Hex.
  - apply Hcsv, same_files_refl.
  - destruct (mkdirs [] dd (fs w)) as [[[]|e] f1] eqn:Hmk.
    + rewrite print_eq. destruct (printable (MsgDirCreated dd)).
      * apply Hcsv. cbn. by eapply mkdirs_files.
      * intros [= <- <-]. left. eexists. split; [done|]. cbn.
        by eapply mkdirs_files.
    + intros [= <- <-]. left. exists e. split; [done|]. cbn. by eapply mkdirs_files.
Qed.

End Run.

Section Outcomes.
Context `{Lib : Library}.

Lemma get_stock_data_eq (env : Env) (symbol adjust_type : pystr) (w : World) :
  get_stock_data env symbol adjust_type w =
  if printable (MsgFetching symbol adjust_type) then
    match try_block env symbol (adjust_map adjust_type)
            {| fs := fs w; stdout := stdout w ++ [MsgFetching symbol adjust_type];
               stderr := stderr w |} with
    | (Ok _, w') => (Ok tt, w')
    | (Raise e, w') =>
      if printable (MsgException e) then
        (Ok tt, {| fs := fs w'; stdout := stdout w' ++ [MsgException e];
                   stderr := stderr w' ++ [MsgTraceback e] |})
      else (Raise UnicodeEncodeError, w')
    end
  else (Raise UnicodeEncodeError, w).
Proof.
  unfold get_stock_data, get_stock_data_for, try_except, try_block, handler,
    mbind, M_bind, bind. cbn [str]. rewrite print_eq.
  destruct (printable (MsgFetching symbol adjust_type)); [|done].
  destruct (try_block_for _ _ _ _) as [[x|e] w']; [done|].
  rewrite print_eq. by destruct (printable (MsgException e)).
Qed.

(** The [try] block, case by case. *)
Lemma try_block_eq (env : Env) (symbol ak_adjust : pystr) (w : World) :
  try_block env symbol ak_adjust w =
  match fetch env symbol ak_adjust with
  | Raise e => (Raise e, w)
  | Ok df =>
    if empty df then
      if printable (MsgEmptyResult symbol) then
        (Ok EmptyReturn,
         {| fs := fs w; stdout := stdout w ++ [MsgEmptyResult symbol];
            stderr := stderr w |})
      else (Raise UnicodeEncodeError, w)
    else match normalize df with
         | Raise e => (Raise e, w)
         | Ok out => save env symbol ak_adjust out w
         end
  end.
Proof.
  unfold try_block, try_block_for, fetch, mbind, M_bind, bind, lift. cbn [str].
  destruct (fetch_for env (Str symbol) ak_adjust) as [df|e]; [|done].
  destruct (empty df).
  - rewrite print_eq. by destruct (printable (MsgEmptyResult symbol)).
  - by destruct (normalize df).
Qed.

Lemma printable_fetching (symbol adjust_type : pystr) :
  printable (MsgFetching symbol adjust_type) = true ->
  printable (MsgEmptyResult symbol) = true.
Proof.
  unfold printable, texts. cbn [forallb]. intros H%andb_prop. by rewrite (proj1 H).
Qed.

(** C4: in a run that reaches the provider (line 18 has printed its
    message), when the provider returns an empty table, the run prints
    the empty-result message after the opening message, leaves the file
    system as it was (no file, no directory), prints nothing on the error
    stream, and returns. *)
Theorem empty_result (env : Env) (symbol adjust_type : pystr)
    (df : DataFrame) (w : World) :
  printable (MsgFetching symbol adjust_type) = true ->
  fetch env symbol (adjust_map adjust_type) = Ok df ->
  empty df = true ->
  exists w',
    get_stock_data env symbol adjust_type w = (Ok tt, w') /\
    fs w' = fs w /\
    stdout w' = stdout w ++ [MsgFetching symbol adjust_type;
                             MsgEmptyResult symbol] /\
    stderr w' = stderr w.
Proof.
  intros Hp Hf He.
  rewrite get_stock_data_eq, Hp, try_block_eq, Hf, He.
  rewrite (printable_fetching _ _ Hp).
  eexists. split; [done|]. cbn. by rewrite <- app_assoc.
Qed.

(** A run that completes wrote its file. *)
Lemma try_block_Completed (env : Env) (symbol ak_adjust : pystr)
    (w w' : World) (p : path) :
  try_block env symbol ak_adjust w = (Ok (Completed p), w') ->
  exists df out content,
    fetch env symbol ak_adjust = Ok df /\
    empty df = false /\
    normalize df = Ok out /\
    p = os_path_join (os_path_join (script_dir env) (py "A_data"))
          (filename symbol ak_adjust) /\
    mapM encode_line (csv_lines false out) = Some content /\
    fs w' !! p = Some (File content) /\
    forall q c, q <> p ->
      (fs w' !! q = Some (File c) <-> fs w !! q = Some (File c)).
Proof.
  rewrite try_block_eq.
  destruct (fetch env symbol ak_adjust) as [df|e]; [|done].
  destruct (empty df) eqn:He.
  { by destruct (printable (MsgEmptyResult symbol)). }
  destruct (normalize df) as [out|e] eqn:Hn; [|done].
  intros [(e & ? & _)|(content & ok & Hw & Hr & Hp & Hq)]%save_inv; [done|].
  destruct ok; [|done]. cbn [andb] in Hr.
  destruct (printable (MsgSaved _)); [|done]. injection Hr as ->.
  exists df, out, content. split_and!; try done. by apply write_lines_complete.
Qed.

(** C5, as amended: when the [try] block raises, the handler prints the
    exception on the output stream and its trace on the error stream, and
    the run returns, when the console can encode the text of the
    exception; when it cannot, the print of the handler raises in turn and
    the encoding error leaves [get_stock_data].  Either way the file
    system is as the block left it: no regular file is created or changed,
    unless the exception is the encoding error of the write itself, or of
    the print of the saved path that follows the write.  Then the output
    file is left with the lines written, those before the one that could
    not be encoded or all of them, and no other regular file is
    touched. *)
Theorem failed_run (env : Env) (symbol adjust_type : pystr)
    (w w0 w1 : World) (e : exn) :
  print (MsgFetching symbol adjust_type) w = (Ok tt, w0) ->
  try_block env symbol (adjust_map adjust_type) w0 = (Raise e, w1) ->
  (printable (MsgException e) = true ->
     get_stock_data env symbol adjust_type w =
     (Ok tt, {| fs := fs w1; stdout := stdout w1 ++ [MsgException e];
                stderr := stderr w1 ++ [MsgTraceback e] |})) /\
  (printable (MsgException e) = false ->
     get_stock_data env symbol adjust_type w = (Raise UnicodeEncodeError, w1)) /\
  (e = UnicodeEncodeError -> printable (MsgException e) = true) /\
  (same_files (fs w) (fs w1) \/
   e = UnicodeEncodeError /\
   exists df out written rest content,
     fetch env symbol (adjust_map adjust_type) = Ok df /\
     normalize df = Ok out /\
     csv_lines false out = written ++ rest /\
     mapM encode_line written = Some content /\
     (rest = [] /\
      printable (MsgSaved (output_path (script_dir env) symbol
                             (adj_suffix (adjust_map adjust_type)))) = false \/
      exists bad post, rest = bad :: post /\ encode_line bad = None) /\
     fs w1 !! output_path (script_dir env) symbol
                (adj_suffix (adjust_map adjust_type)) = Some (File content) /\
     forall q c,
       q <> output_path (script_dir env) symbol
              (adj_suffix (adjust_map adjust_type)) ->
       (fs w1 !! q = Some (File c) <-> fs w !! q = Some (File c))).
Proof.
  rewrite print_eq. destruct (printable (MsgFetching symbol adjust_type)) eqn:Hp;
    [|done].
  intros [= <-] Ht.
  split_and!.
  - intros He. by rewrite get_stock_data_eq, Hp, Ht, He.
  - intros He. by rewrite get_stock_data_eq, Hp, Ht, He.
  - by intros ->.
  - rewrite try_block_eq in Ht. cbn [fs] in *.
    destruct (fetch env symbol (adjust_map adjust_type)) as [df|e'] eqn:Hf.
    2:{ injection Ht as -> <-. left. apply same_files_refl. }
    destruct (empty df) eqn:He.
    { destruct (printable (MsgEmptyResult symbol)); [done|].
      injection Ht as <- <-. left. apply same_files_refl. }
    destruct (normalize df) as [out|e'] eqn:Hn.
    2:{ injection Ht as -> <-. left. apply same_files_refl. }
    apply save_inv in Ht as [(e' & _ & Hs)|(content & ok & Hw & Hr & Hfile & Hq)].
    { by left. }
    right. cbn [fs] in Hq.
    assert (e = UnicodeEncodeError) as ->.
    { destruct (ok && _); by simplify_eq. }
    split; [done|]. destruct ok.
    + apply write_lines_complete in Hw. cbn [andb] in Hr.
      destruct (printable (MsgSaved _)) eqn:Hps; [done|].
      exists df, out, (csv_lines false out), [], content.
      rewrite app_nil_r. split_and!; [done..| |done|done]. by left.
    + apply write_lines_partial in Hw as (pre & bad & post & Hl & Hpre & Hbad).
      exists df, out, pre, (bad :: post), content.
      split_and!; [done..| |done|done]. right. by exists bad, post.
Qed.

End Outcomes.

(** ** Paths *)

Lemma split_sep_plain (cur s : pystr) :
  sep ∉ s -> split_sep cur s = [cur ++ s].
Proof.
  revert cur. induction s as [|c s IH]; intros cur Hs; simpl.
  - by rewrite app_nil_r.
  - apply not_elem_of_cons in Hs as [Hc Hs].
    destruct (N.eqb_spec c sep) as [->|_]; [done|].
    rewrite IH by done. by rewrite <- app_assoc.
Qed.

(** Joining a plain name (no separator, not empty, not [.] or [..])
    appends it. *)
Lemma os_path_join_plain (d : path) (name : pystr) :
  sep ∉ name -> name <> [] -> name <> py "." -> name <> py ".." ->
  os_path_join d name = d ++ [name].
Proof.
  intros Hs H0 H1 H2. unfold os_path_join.
  destruct name as [|c name]; [done|].
  destruct (N.eqb_spec c sep) as [->|_].
  { destruct Hs. by left. }
  rewrite split_sep_plain by done. cbn [walk app].
  apply pystr_eqb_false in H0, H1, H2. by rewrite H0, H1, H2.
Qed.

Lemma data_dir_plain (d : path) : os_path_join d (py "A_data") = d ++ [py "A_data"].
Proof.
  apply os_path_join_plain; [|done..].
  apply (bool_decide_unpack _). by vm_compute.
Qed.

Section Written.
Context `{Lib : Library}.

Lemma filename_plain (symbol ak_adjust : pystr) :
  sep ∉ symbol -> sep ∉ adj_suffix ak_adjust ->
  (sep ∉ filename symbol ak_adjust) /\
  filename symbol ak_adjust <> [] /\
  filename symbol ak_adjust <> py "." /\
  filename symbol ak_adjust <> py "..".
Proof.
  intros Hs Ht. unfold filename. split_and!.
  - rewrite !not_elem_of_app. split_and!; [done| |done|].
    + apply (bool_decide_unpack _). by vm_compute.
    + apply (bool_decide_unpack _). by vm_compute.
  - intros H%(f_equal length). rewrite !length_app in H.
    change (length (py "_A_data.csv")) with 11 in H. cbn [length] in H. lia.
  - intros H%(f_equal length). rewrite !length_app in H.
    change (length (py "_A_data.csv")) with 11 in H.
    change (length (py ".")) with 1 in H. lia.
  - intros H%(f_equal length). rewrite !length_app in H.
    change (length (py "_A_data.csv")) with 11 in H.
    change (length (py "..")) with 2 in H. lia.
Qed.

Lemma adj_suffix_cases (adjust_type : pystr) :
  (adj_suffix (adjust_map adjust_type) ∈ [py "no_adj"; py "hfq"; py "qfq"]) /\
  (adjust_map adjust_type = py "" ->
     adj_suffix (adjust_map adjust_type) = py "no_adj") /\
  (adjust_map adjust_type = py "hfq" ->
     adj_suffix (adjust_map adjust_type) = py "hfq") /\
  (adjust_map adjust_type = py "qfq" ->
     adj_suffix (adjust_map adjust_type) = py "qfq").
Proof.
  pose proof (adjust_map_range adjust_type) as H.
  split_and!; [|by intros ->..].
  apply str_in_true.
  repeat (apply elem_of_cons in H as [->|H]; [by vm_compute|]).
  by apply elem_of_nil in H.
Qed.


End Written.

(** ** The written file *)

Section Csv.
Context `{Lib : Library}.

Lemma rename_label_other (table : list (pystr * pystr)) (l : pystr) :
  l ∉ (fst <$> table) -> rename_label table l = l.
Proof.
  induction table as [|[k v] table IH]; simpl; [done|].
  intros [Hk Ht]%not_elem_of_cons.
  apply pystr_eqb_false in Hk. rewrite Hk. by apply IH.
Qed.

Lemma normalized_headers_table : snd <$> rename_table = normalized_headers.
Proof. reflexivity. Qed.

Lemma numeric_normalized (l : pystr) :
  l ∈ numeric_cols -> l ∈ (snd <$> rename_table).
Proof.
  intros H. apply str_in_true. unfold numeric_cols in H.
  repeat (apply elem_of_cons in H as [->|H]; [by vm_compute|]).
  by apply elem_of_nil in H.
Qed.

Lemma date_normalized : py "date" ∈ (snd <$> rename_table).
Proof. by apply str_in_true. Qed.

(** The lines of a written file: the header is the labels, each line
    the texts of a row, every field in UTF-8, no field for the index. *)
Lemma csv_lines_encoded (df : DataFrame) (content : list (list (list N))) :
  mapM encode_line (csv_lines false df) = Some content ->
  exists header body,
    content = header :: body /\
    mapM utf8_encode (columns df) = Some header /\
    Forall2 (fun (kr : Z * list cell) line =>
               mapM utf8_encode (to_text <$> kr.2) = Some line)
            (rows df) body.
Proof.
  intros H%mapM_Some. unfold csv_lines in H. cbn [app] in H.
  apply Forall2_cons_inv_l in H as (header & body & Hh & Hb & ->).
  exists header, body. split_and!; [done..|].
  apply Forall2_fmap_l in Hb. eapply Forall2_impl; [exact Hb|]. done.
Qed.


Lemma mapM_lookup {A B} (f : A -> option B) (xs : list A) (ys : list B) (n : nat) :
  mapM f xs = Some ys -> ys !! n = xs !! n ≫= f.
Proof.
  intros H%mapM_Some. destruct (xs !! n) as [x|] eqn:Hx; simpl.
  - destruct (Forall2_lookup_l _ _ _ _ _ H Hx) as (y & Hy & Hxy). congruence.
  - apply lookup_ge_None. apply lookup_ge_None in Hx.
    by rewrite <- (Forall2_length _ _ _ H).
Qed.

(** Every row the normalizer returns is the normalized form of a fetched
    row. *)
Lemma normalize_row_origin (df out : DataFrame) (i : nat) (kr' : Z * list cell) :
  normalize df = Ok out ->
  locate (py "date") (rename rename_table df) = Ok i ->
  kr' ∈ rows out ->
  exists kr, kr ∈ rows df /\
    normalized_row i (rename_label rename_table <$> columns df) kr kr'.
Proof.
  intros (i' & dfc & Hi & _ & Hc & _ & Hrows & Hsub)%normalize_Ok Hi' Hkr.
  rewrite Hi in Hi'. injection Hi' as ->. rewrite Hc in Hrows.
  apply (elem_of_sublist _ _ _ Hkr) in Hsub.
  apply list_elem_of_lookup in Hsub as [n Hn].
  destruct (Forall2_lookup_r _ _ _ _ _ Hrows Hn) as (kr & Hkr' & Hnorm).
  exists kr. split; [|done]. apply list_elem_of_lookup. by exists n.
Qed.



(** C9, as amended: a column of the response whose label is not a source
    label of the rename table keeps its label and its place through the
    normalizer and in the header of the written file.  When the label is
    none of the normalized names either, no step addresses the column, and
    every written line holds under it the text of the value the response
    had there: the text itself, the number as the library writes it, the
    day as YYYY-MM-DD, nothing for a missing value.  (A column that
    already bears a normalized name is treated as that field.) *)
Theorem extra_column_written (env : Env) (symbol ak_adjust : pystr)
    (w w' : World) (p : path) (df : DataFrame) (l : pystr) (n : nat) :
  try_block env symbol ak_adjust w = (Ok (Completed p), w') ->
  fetch env symbol ak_adjust = Ok df ->
  columns df !! n = Some l ->
  l ∉ (fst <$> rename_table) ->
  exists out header body,
    normalize df = Ok out /\
    fs w' !! p = Some (File (header :: body)) /\
    length (columns out) = length (columns df) /\
    columns out !! n = Some l /\
    header !! n = utf8_encode l /\
    is_Some (header !! n) /\
    (l ∉ (snd <$> rename_table) ->
       Forall2 (fun (kr' : Z * list cell) (line : list (list N)) =>
                  exists kr, kr ∈ rows df /\ kr.1 = kr'.1 /\
                    kr'.2 !! n = kr.2 !! n /\
                    (forall s, kr.2 !! n = Some (VStr s) ->
                       line !! n = utf8_encode s) /\
                    (forall x, kr.2 !! n = Some (VNum x) ->
                       line !! n = utf8_encode (repr_number x)) /\
                    (forall d, kr.2 !! n = Some (VDate d) ->
                       line !! n = utf8_encode (strftime_ymd d)) /\
                    (kr.2 !! n = Some VNaN -> line !! n = Some []) /\
                    (kr.2 !! n = None -> line !! n = None))
               (rows out) body).
Proof.
  intros (df' & out & content & Hf & He & Hn & _ & Hc & Hp & _)%try_block_Completed
         Hf' Hl Hkey.
  rewrite Hf in Hf'. injection Hf' as ->.
  apply csv_lines_encoded in Hc as (header & body & -> & Hh & Hb).
  pose proof Hn as (i & dfc & Hi & _ & Hcc & Hco & _ & _)%normalize_Ok.
  assert (columns out !! n = Some l) as Hout.
  { rewrite Hco, Hcc, list_lookup_fmap, Hl.
    change (Some (rename_label rename_table l) = Some l).
    by rewrite rename_label_other. }
  pose proof (mapM_lookup _ _ _ n Hh) as Hhn. rewrite Hout in Hhn. cbn in Hhn.
  exists out, header, body. split_and!; [done..| |done|done| |].
  - by rewrite Hco, Hcc, length_fmap.
  - apply mapM_Some in Hh.
    destruct (Forall2_lookup_l _ _ _ _ _ Hh Hout) as (hl & -> & _). by eexists.
  - intros Hval.
    assert (forall kr', kr' ∈ rows out ->
              exists kr, kr ∈ rows df /\ kr.1 = kr'.1 /\ kr'.2 !! n = kr.2 !! n)
      as Horigin.
    { intros kr' Hin.
      destruct (normalize_row_origin df out i kr' Hn Hi Hin)
        as (kr & Hkr & Hk & t & _ & Hj).
      exists kr. split_and!; [done..|].
      destruct (Hj n) as (_ & _ & Hother).
      assert ((rename_label rename_table <$> columns df) !! n = Some l) as Hcol.
      { by rewrite <- Hcc, <- Hco. }
      apply Hother.
      - intros ->. apply locate_column in Hi.
        change (columns (rename rename_table df))
          with (rename_label rename_table <$> columns df) in Hi.
        rewrite Hi in Hcol. injection Hcol as <-.
        apply Hval, date_normalized.
      - intros l' Hl' Hcol'. rewrite Hcol in Hcol'. injection Hcol' as <-.
        by apply Hval, numeric_normalized. }
    apply Forall2_same_length_lookup_2; [by eapply Forall2_length|].
    intros k kr' line Hkr' Hline.
    destruct (Horigin kr') as (kr & Hkr & Hk & Hcell).
    { apply list_elem_of_lookup. by exists k. }
    exists kr. split_and!; [done..| | | | |].
    all: pose proof (Forall2_lookup_lr _ _ _ _ _ _ Hb Hkr' Hline) as Henc;
      rewrite (mapM_lookup _ _ _ n Henc), list_lookup_fmap, Hcell.
    + by intros s ->.
    + by intros x ->.
    + by intros d ->.
    + by intros ->.
    + by intros ->.
Qed.

End Csv.

(** ** The command line *)







Lemma classify_code : classify (py "--code") = Opt ActCode (py "--code") None.
Proof. by vm_compute. Qed.

Lemma classify_adjust :
  classify (py "--adjust") = Opt ActAdjust (py "--adjust") None.
Proof. by vm_compute. Qed.

Lemma classify_plain (t : pystr) :
  starts_with t [dash] = false -> classify t = Plain t.
Proof.
  destruct t as [|c r]; [done|]. intros H. unfold classify.
  destruct (N.eqb_spec c dash) as [->|Hne]; [|done].
  by destruct r.
Qed.

Lemma not_end_of_options (t : pystr) :
  starts_with t [dash] = false -> pystr_eqb t (py "--") = false.
Proof.
  intros H. apply pystr_eqb_false. intros ->. by vm_compute in H.
Qed.

Lemma value_of_plain (t : pystr) :
  starts_with t [dash] = false -> value_of t = Str t.
Proof. intros H. unfold value_of. by rewrite not_end_of_options. Qed.



Ltac run_consume :=
  cbn [existsb is_ambiguous consume fmap list_fmap orb given action_eqb].

Section CommandLine.
Context `{Lib : Library}.

Lemma main_Namespace (env : Env) (argv : list pystr) (w : World) (code adjust : arg) :
  parse_args argv = Namespace code adjust ->
  main env argv w =
  match get_stock_data_for env code adjust w with
  | (Ok _, w') => (0, w')
  | (Raise e, w') =>
    (1, {| fs := fs w'; stdout := stdout w';
           stderr := stderr w' ++ [MsgTraceback e] |})
  end.
Proof.
  intros H. unfold main. rewrite H.
  by destruct (get_stock_data_for env code adjust w) as [[[]|e] w'].
Qed.



End CommandLine.

(** ** Runs on the sample frames *)

Section Samples.
#[local] Existing Instance sample.




Lemma normalize_keeps_order_witness :
  normalize sample_frame = Ok sample_normalized /\
  exists i mid,
    locate (py "date") (rename rename_table sample_frame) = Ok i /\
    Forall2 (normalized_row i (columns sample_normalized))
      (rows sample_frame) mid /\
    rows sample_normalized `sublist_of` mid /\
    (fst <$> rows sample_normalized) `sublist_of` (fst <$> rows sample_frame) /\
    (Sorted (by_date i) (rows sample_frame) ->
     Sorted (by_date_text i) (rows sample_normalized)).
Proof.
  assert (normalize sample_frame = Ok sample_normalized) as H
    by reflexivity.
  split; [exact H|].
  exact (normalize_keeps_order sample_frame sample_normalized H).
Defined.

Lemma empty_result_witness :
  printable (MsgFetching (py "600519") (py "qfq")) = true /\
  fetch (sample_env empty_frame) (py "600519") (adjust_map (py "qfq"))
    = Ok empty_frame /\
  empty empty_frame = true /\
  exists w',
    get_stock_data (sample_env empty_frame) (py "600519") (py "qfq")
      sample_world = (Ok tt, w') /\
    fs w' = fs sample_world /\
    stdout w' = stdout sample_world ++
                [MsgFetching (py "600519") (py "qfq");
                 MsgEmptyResult (py "600519")] /\
    stderr w' = stderr sample_world.
Proof.
  assert (printable (MsgFetching (py "600519") (py "qfq")) = true) as Hp
    by reflexivity.
  split_and!; [exact Hp | reflexivity..|].
  exact (empty_result (sample_env empty_frame) (py "600519") (py "qfq")
           empty_frame sample_world Hp eq_refl eq_refl).
Defined.

Lemma failed_run_witness :
  print (MsgFetching (py "600519") (py "qfq")) sample_world
    = (Ok tt, sample_started) /\
  try_block (sample_env unencodable_frame) (py "600519") (adjust_map (py "qfq"))
    sample_started = (Raise UnicodeEncodeError, sample_failed) /\
  get_stock_data (sample_env unencodable_frame) (py "600519") (py "qfq")
    sample_world =
  (Ok tt, {| fs := fs sample_failed;
             stdout := stdout sample_failed ++ [MsgException UnicodeEncodeError];
             stderr := stderr sample_failed ++
                       [MsgTraceback UnicodeEncodeError] |}).
Proof.
  assert (print (MsgFetching (py "600519") (py "qfq")) sample_world
          = (Ok tt, sample_started)) as H0
    by reflexivity.
  assert (try_block (sample_env unencodable_frame) (py "600519")
            (adjust_map (py "qfq")) sample_started
          = (Raise UnicodeEncodeError, sample_failed)) as H
    by reflexivity.
  split_and!; [exact H0 | exact H |].
  destruct (failed_run (sample_env unencodable_frame) (py "600519")
              (py "qfq") sample_world sample_started sample_failed
              UnicodeEncodeError H0 H)
    as (Hprinted & _ & Hp & _).
  exact (Hprinted (Hp eq_refl)).
Defined.

(** C5, as stated, fails: this run raises while it writes (a text of the
    second row cannot be encoded), the exception is caught and the run
    returns, and it leaves an output file that was not there before, with
    the header and the first row. *)
Lemma partial_file_after_failure :
  try_block (sample_env unencodable_frame) (py "600519")
    (adjust_map (py "qfq")) sample_started
  = (Raise UnicodeEncodeError, sample_failed) /\
  (get_stock_data (sample_env unencodable_frame) (py "600519") (py "qfq")
     sample_world).1 = Ok tt /\
  file_at (fs sample_world)
    [py "home"; py "u"; py "A_data"; py "600519_qfq_A_data.csv"] = None /\
  file_at
    (fs (get_stock_data (sample_env unencodable_frame) (py "600519") (py "qfq")
           sample_world).2)
    [py "home"; py "u"; py "A_data"; py "600519_qfq_A_data.csv"]
  = Some [sample_header;
          bytes_of <$> ["2024-01-02"; "600519"; "10"; "11"; "12"; "9"; "100";
                        "1000"; "3"; "2"; "1"; "5"]%string].
Proof.
  split_and!.
  - reflexivity.
  - reflexivity.
  - reflexivity.
  - reflexivity.
Qed.

(** C5 fails in a second way: when the provider raises with a message
    that the console cannot encode, the print of the [except] clause
    raises in its turn, and the exception leaves [get_stock_data]: the
    process ends with status 1. *)
Lemma handler_print_raises :
  (get_stock_data (raising_env [0xD800%N]) (py "600519") (py "qfq")
     sample_world).1 = Raise UnicodeEncodeError /\
  (main (raising_env [0xD800%N]) [py "--code"; py "600519"] sample_world).1
  = 1.
Proof.
  split.
  - reflexivity.
  - reflexivity.
Qed.




Lemma extra_column_written_witness :
  try_block (sample_env sample_frame) (py "600519") (adjust_map (py "hfq"))
    sample_world = (Ok (Completed sample_path), sample_saved) /\
  fetch (sample_env sample_frame) (py "600519") (adjust_map (py "hfq"))
    = Ok sample_frame /\
  columns sample_frame !! 1 = Some (py "股票代码") /\
  (py "股票代码" ∉ (fst <$> rename_table)) /\
  exists header body,
    fs sample_saved !! sample_path = Some (File (header :: body)) /\
    columns sample_normalized !! 1 = Some (py "股票代码") /\
    header !! 1 = utf8_encode (py "股票代码") /\
    Forall (fun line : list (list N) =>
              line !! 1 = utf8_encode (py "600519")) body.
Proof.
  assert (try_block (sample_env sample_frame) (py "600519")
            (adjust_map (py "hfq")) sample_world
          = (Ok (Completed sample_path), sample_saved)) as H
    by reflexivity.
  assert (py "股票代码" ∉ (fst <$> rename_table)) as Hkey
    by (by apply str_in_false).
  assert (py "股票代码" ∉ (snd <$> rename_table)) as Hval
    by (by apply str_in_false).
  split_and!; [exact H | reflexivity | reflexivity | exact Hkey |].
  destruct (extra_column_written (sample_env sample_frame) (py "600519")
              (adjust_map (py "hfq")) sample_world sample_saved sample_path
              sample_frame (py "股票代码") 1 H eq_refl eq_refl Hkey)
    as (out & header & body & Hn & Hp & _ & Hc & Hh & _ & Hb).
  assert (normalize sample_frame = Ok sample_normalized) as Hn'
    by reflexivity.
  rewrite Hn' in Hn. injection Hn as <-.
  exists header, body. split_and!; [assumption..|].
  specialize (Hb Hval). apply Forall2_Forall_r with (1 := Hb).
  apply Forall_forall. intros kr' _ line (kr & Hkr & _ & _ & Hs & _).
  apply Hs. clear -Hkr.
  unfold sample_frame in Hkr. cbn [rows] in Hkr.
  repeat (apply elem_of_cons in Hkr as [->|Hkr]; [reflexivity|]).
  by apply elem_of_nil in Hkr.
Defined.

(** C9, as stated, fails: [open] is no source label of the rename table,
    yet the column that has this label in the response does not pass
    unchanged: it is taken for the normalized column of that name, its
    text that is no number becomes the missing value, and the field is
    written empty. *)
Lemma relabelled_column_coerced :
  fetch (sample_env relabelled_frame) (py "600519") (adjust_map (py "hfq"))
    = Ok relabelled_frame /\
  columns relabelled_frame !! 2 = Some (py "open") /\
  (py "open" ∉ (fst <$> rename_table)) /\
  ((fun kr : Z * list cell => kr.2 !! 2) <$> rows relabelled_frame)
    = [Some (VStr (py "abc"))] /\
  normalize relabelled_frame = Ok relabelled_normalized /\
  ((fun kr : Z * list cell => kr.2 !! 2) <$> rows relabelled_normalized)
    = [Some VNaN] /\
  (get_stock_data (sample_env relabelled_frame) (py "600519") (py "hfq")
     sample_world).1 = Ok tt /\
  file_at
    (fs (get_stock_data (sample_env relabelled_frame) (py "600519") (py "hfq")
           sample_world).2) sample_path
  = Some [sample_header;
          bytes_of <$> ["2024-01-02"; "600519"; ""; "11"; "12"; "9"; "100";
                        "1000"; "3"; "2"; "1"; "5"]%string].
Proof.
  split_and!.
  - reflexivity.
  - reflexivity.
  - by apply str_in_false.
  - reflexivity.
  - reflexivity.
  - reflexivity.
  - reflexivity.
  - reflexivity.
Qed.


End Samples.

(** * Further properties *)

(** ** Errors of the normalizer *)

Lemma rmap_Exists_Raise {A B} (f : A -> result B) (l : list A) :
  Exists (fun a => exists e, f a = Raise e) l ->
  exists e a, a ∈ l /\ f a = Raise e /\ rmap f l = Raise e.
Proof.
  induction 1 as [a l [e He]|a l _ (e & a' & Hin & He & Hr)]; simpl.
  - exists e, a. split_and!; [by left|done|by rewrite He].
  - destruct (f a) as [b|e'] eqn:Hfa.
    + exists e, a'. split_and!; [by right|done|by rewrite Hr].
    + exists e', a. split_and!; [by left|done..].
Qed.

Lemma positions_from_absent (k : nat) (label : pystr) (cols : list pystr) :
  label ∉ cols -> positions_from k label cols = [].
Proof.
  revert k. induction cols as [|c cols IH]; intros k; simpl; [done|].
  intros [Hc Hl]%not_elem_of_cons.
  destruct (pystr_eqb c label) eqn:E.
  - apply pystr_eqb_true in E. by subst.
  - by apply IH.
Qed.

Lemma positions_from_NoDup (k : nat) (label : pystr) (cols : list pystr) :
  NoDup cols -> label ∈ cols ->
  exists i, positions_from k label cols = [i].
Proof.
  revert k. induction cols as [|c cols IH]; intros k Hnd Hin; simpl.
  - by apply elem_of_nil in Hin.
  - apply NoDup_cons in Hnd as [Hc Hnd].
    destruct (pystr_eqb c label) eqn:E.
    + apply pystr_eqb_true in E as ->. exists k.
      by rewrite positions_from_absent.
    + apply pystr_eqb_false in E.
      apply elem_of_cons in Hin as [->|Hin]; [done|]. by apply IH.
Qed.

Section NormalizerErrors.
Context `{Lib : Library}.

Lemma locate_absent (label : pystr) (df : DataFrame) :
  label ∉ columns df -> locate label df = Raise (KeyError label).
Proof.
  intros H. unfold locate, positions. by rewrite positions_from_absent.
Qed.

Lemma locate_NoDup (label : pystr) (df : DataFrame) :
  NoDup (columns df) -> label ∈ columns df -> exists i, locate label df = Ok i.
Proof.
  intros Hnd Hin. unfold locate, positions.
  destruct (positions_from_NoDup 0 label _ Hnd Hin) as [i ->]. by exists i.
Qed.

Lemma locate_twice (label : pystr) (df : DataFrame) (i j : nat) :
  i <> j -> columns df !! i = Some label -> columns df !! j = Some label ->
  locate label df = Raise (NotASeries label).
Proof.
  intros Hij Hi%positions_spec Hj%positions_spec. unfold locate.
  destruct (positions label df) as [|a [|b l]] eqn:E; [| |done].
  - by apply elem_of_nil in Hi.
  - apply list_elem_of_singleton in Hi, Hj. congruence.
Qed.

(** X1: the date is addressed by its normalized name.  A response with no
    column that is, or is renamed to, [date] makes the normalizer raise
    [KeyError] for [date]. *)
Theorem date_column_required (df : DataFrame) :
  py "date" ∉ (rename_label rename_table <$> columns df) ->
  normalize df = Raise (KeyError (py "date")).
Proof.
  intros H. unfold normalize, coerced, format_date.
  by rewrite (locate_absent (py "date") (rename rename_table df)).
Qed.

(** X2: two date columns are refused.  A response with two columns that
    are, or are renamed to, [date] (say both the source label and [date])
    makes the normalizer raise: [df['date']] is then no Series. *)
Theorem date_column_twice (df : DataFrame) (i j : nat) :
  i <> j ->
  (rename_label rename_table <$> columns df) !! i = Some (py "date") ->
  (rename_label rename_table <$> columns df) !! j = Some (py "date") ->
  exists e, normalize df = Raise e.
Proof.
  intros Hij Hi Hj. eexists. unfold normalize, coerced, format_date.
  by rewrite (locate_twice (py "date") (rename rename_table df) i j).
Qed.

(** X3: a date the parser refuses.  When a row of the response has,
    for its date, a text that the date parser refuses, the normalizer
    raises; and it raises [ValueError] with this text when the dates of
    the rows before it are all converted. *)
Theorem bad_date_raises (df : DataFrame) (i : nat)
    (pre post : list (Z * list cell)) (kr : Z * list cell) (s : pystr) :
  locate (py "date") (rename rename_table df) = Ok i ->
  rows df = pre ++ kr :: post ->
  cell_at i kr.2 = VStr s ->
  parse_datetime s = None ->
  (exists e, normalize df = Raise e) /\
  (Forall (fun r : Z * list cell =>
             exists t, to_datetime (cell_at i r.2) = Ok t) pre ->
   normalize df = Raise (ValueError s)).
Proof.
  intros Hi Hrows Hcell Hs.
  assert (to_datetime (cell_at i kr.2) = Raise (ValueError s)) as Hkr.
  { rewrite Hcell. cbn [to_datetime]. by rewrite Hs. }
  unfold normalize, coerced, format_date.
  rewrite Hi. cbn [rbind].
  change (rows (rename rename_table df)) with (rows df).
  set (f := fun r : Z * list cell =>
              rbind (to_datetime (cell_at i r.2)) (fun t =>
              Ok (r.1, <[i := strftime t]> r.2))).
  split.
  - destruct (rmap_Exists_Raise f (rows df)) as (e & r & _ & _ & ->).
    { rewrite Hrows. apply Exists_app. right. apply Exists_cons. left.
      exists (ValueError s). unfold f. by rewrite Hkr. }
    by exists e.
  - intros Hpre. rewrite Hrows.
    assert (rmap f (pre ++ kr :: post) = Raise (ValueError s)) as ->; [|done].
    clear Hrows.
    induction Hpre as [|r pre [t Ht] _ IH]; cbn [app rmap].
    + unfold f at 1. by rewrite Hkr.
    + unfold f at 1. rewrite Ht. cbn [rbind]. by rewrite IH.
Qed.

Lemma coerce_columns_first_missing (cols : list pystr) (df : DataFrame) :
  NoDup (columns df) ->
  Exists (fun l => l ∉ columns df) cols ->
  exists pre l post,
    cols = pre ++ l :: post /\
    Forall (fun l' => l' ∈ columns df) pre /\
    (l ∉ columns df) /\
    coerce_columns cols df = Raise (KeyError l).
Proof.
  intros Hnd. revert df Hnd.
  induction cols as [|c cols IH]; intros df Hnd Hex; [by inversion Hex|].
  destruct (decide (c ∈ columns df)) as [Hc|Hc].
  - destruct (locate_NoDup c df Hnd Hc) as [i Hi].
    apply Exists_cons in Hex as [?|Hex]; [done|].
    simpl. unfold coerce_column at 1. rewrite Hi. cbn [rbind].
    destruct (IH (assign i (to_numeric (column i df)) df) Hnd Hex)
      as (pre & l & post & -> & Hpre & Hl & Hr).
    exists (c :: pre), l, post. split_and!; [done|by constructor|done|done].
  - exists [], c, cols. split_and!; [done|constructor|done|].
    simpl. unfold coerce_column. by rewrite locate_absent.
Qed.

(** X4: the numeric fields are required.  When the date step passed and
    the labels are distinct after the renaming, a response that lacks one
    of the ten numeric fields makes the normalizer raise [KeyError] for the
    first such field, in the order of [numeric_cols]. *)
Theorem numeric_column_required (df dfd : DataFrame) :
  format_date (rename rename_table df) = Ok dfd ->
  NoDup (rename_label rename_table <$> columns df) ->
  Exists (fun l => l ∉ (rename_label rename_table <$> columns df)) numeric_cols ->
  exists pre l post,
    numeric_cols = pre ++ l :: post /\
    Forall (fun l' => l' ∈ (rename_label rename_table <$> columns df)) pre /\
    (l ∉ (rename_label rename_table <$> columns df)) /\
    normalize df = Raise (KeyError l).
Proof.
  intros Hf Hnd Hex.
  pose proof Hf as (i & _ & Hc & _)%format_date_Ok.
  change (columns (rename rename_table df))
    with (rename_label rename_table <$> columns df) in Hc.
  rewrite <- Hc in Hnd, Hex.
  destruct (coerce_columns_first_missing numeric_cols dfd Hnd Hex)
    as (pre & l & post & Hsplit & Hpre & Hl & Hr).
  exists pre, l, post. rewrite <- Hc. split_and!; [done..|].
  unfold normalize, coerced. rewrite Hf. cbn [rbind]. by rewrite Hr.
Qed.

End NormalizerErrors.

(** ** What a run leaves in the file system *)

Lemma mkdirs_subseteq (base : path) (names : list pystr)
    (f f' : gmap path node) (r : result unit) :
  mkdirs base names f = (r, f') -> f ⊆ f'.
Proof.
  revert base f. induction names as [|n names IH]; intros base f; simpl.
  - by intros [= _ <-].
  - destruct names as [|n' names].
    + destruct (f !! (base ++ [n])) eqn:Hn; intros [= _ <-]; [done|].
      by apply insert_subseteq.
    + destruct (f !! (base ++ [n])) as [[|c]|] eqn:Hn.
      * apply IH.
      * by intros [= _ <-].
      * intros H%IH. etrans; [|exact H]. by apply insert_subseteq.
Qed.

Lemma mkdirs_Ok (base : path) (names : list pystr) (f f' : gmap path node) :
  mkdirs base names f = (Ok tt, f') -> f' !! (base ++ names) = Some Dir.
Proof.
  revert base f. induction names as [|n names IH]; intros base f; simpl; [done|].
  destruct names as [|n' names].
  - destruct (f !! (base ++ [n])) eqn:Hn; intros [= <-].
    apply lookup_insert_eq.
  - replace (base ++ n :: n' :: names) with ((base ++ [n]) ++ n' :: names)
      by (by rewrite <- app_assoc).
    destruct (f !! (base ++ [n])) as [[|c]|] eqn:Hn; [apply IH|done|apply IH].
Qed.

Lemma open_w_Ok (f : gmap path node) (p : path) :
  open_w f p = Ok tt ->
  is_dir f p = false /\ is_dir f (removelast p) = true /\ p <> [].
Proof.
  unfold open_w. destruct (is_dir f p) eqn:Hp; [done|].
  destruct (is_dir f (removelast p)) eqn:Hd; [|by case_match].
  intros _. split_and!; [done..|]. by intros ->.
Qed.

Lemma removelast_neq {A} (l : list A) : l <> [] -> removelast l <> l.
Proof.
  intros Hl H%(f_equal length).
  destruct l as [|a l] using rev_ind; [done|].
  rewrite removelast_last, length_app in H. simpl in H. lia.
Qed.

Lemma exists_Some (f : gmap path node) (p : path) (n : node) :
  f !! p = Some n -> exists_ f p = true.
Proof.
  intros H. unfold exists_. destruct p; [done|].
  apply bool_decide_eq_true. by rewrite H.
Qed.

Lemma exists_insert (f : gmap path node) (p q : path) (n : node) :
  exists_ f q = true -> exists_ (<[p := n]> f) q = true.
Proof.
  unfold exists_. destruct q; [done|].
  intros H%bool_decide_eq_true. apply bool_decide_eq_true.
  apply lookup_insert_is_Some'. by right.
Qed.

(** Opening the file a run has written, for a second write. *)
Lemma open_w_again (f : gmap path node) (p : path) (c : list (list (list N))) :
  open_w f p = Ok tt -> open_w (<[p := File c]> f) p = Ok tt.
Proof.
  intros (_ & Hd & Hp)%open_w_Ok. unfold open_w.
  assert (is_dir (<[p := File c]> f) p = false) as ->.
  { unfold is_dir. destruct p; [done|]. by rewrite lookup_insert_eq. }
  assert (is_dir (<[p := File c]> f) (removelast p) = true) as ->; [|done].
  unfold is_dir in *. destruct (removelast p) eqn:Hr; [done|].
  rewrite lookup_insert_ne; [done|]. rewrite <- Hr. intros H.
  by apply (removelast_neq p).
Qed.

Section FileSystem.
Context `{Lib : Library}.

(** [save] when the data directory is there. *)
Lemma save_found (env : Env) (symbol ak_adjust : pystr) (df : DataFrame)
    (w : World) :
  let p := os_path_join (os_path_join (script_dir env) (py "A_data"))
             (filename symbol ak_adjust) in
  exists_ (fs w) (os_path_join (script_dir env) (py "A_data")) = true ->
  save env symbol ak_adjust df w =
  match open_w (fs w) p with
  | Raise e => (Raise e, w)
  | Ok _ =>
    match mapM encode_line (csv_lines false df) with
    | Some content =>
      if printable (MsgSaved p) then
        (Ok (Completed p),
         {| fs := <[p := File content]> (fs w);
            stdout := stdout w ++ [MsgSaved p; MsgRowCount (len df);
                                   MsgPreviewTitle; MsgPreview (head df)];
            stderr := stderr w |})
      else
        (Raise UnicodeEncodeError,
         {| fs := <[p := File content]> (fs w);
            stdout := stdout w; stderr := stderr w |})
    | None =>
      (Raise UnicodeEncodeError,
       {| fs := <[p := File (write_lines (csv_lines false df)).1]> (fs w);
          stdout := stdout w; stderr := stderr w |})
    end
  end.
Proof. intros p Hex. rewrite save_eq. cbn zeta. by rewrite Hex. Qed.

(** What [save] makes of the world when it completes. *)
Lemma save_Completed (env : Env) (symbol ak_adjust : pystr) (df : DataFrame)
    (w w' : World) (p : path) :
  save env symbol ak_adjust df w = (Ok (Completed p), w') ->
  let data_dir := os_path_join (script_dir env) (py "A_data") in
  exists f1 content,
    p = os_path_join data_dir (filename symbol ak_adjust) /\
    (if exists_ (fs w) data_dir then f1 = fs w
     else mkdirs [] data_dir (fs w) = (Ok tt, f1)) /\
    open_w f1 p = Ok tt /\
    mapM encode_line (csv_lines false df) = Some content /\
    printable (MsgSaved p) = true /\
    fs w' = <[p := File content]> f1 /\
    stdout w' = stdout w ++
      (if exists_ (fs w) data_dir then [] else [MsgDirCreated data_dir]) ++
      [MsgSaved p; MsgRowCount (len df); MsgPreviewTitle;
       MsgPreview (head df)] /\
    stderr w' = stderr w.
Proof.
  intros H dd. rewrite save_eq in H. cbn zeta in H. fold dd in H.
  set (p0 := os_path_join dd (filename symbol ak_adjust)) in *.
  destruct (exists_ (fs w) dd) eqn:Hex.
  - destruct (open_w (fs w) p0) as [[]|e] eqn:Ho; [|done].
    destruct (mapM encode_line (csv_lines false df)) as [content|]; [|done].
    destruct (printable (MsgSaved p0)) eqn:Hpr; [|done].
    injection H as <- <-. exists (fs w), content. cbn [fs stdout stderr].
    by split_and!.
  - destruct (mkdirs [] dd (fs w)) as [[[]|e] f1] eqn:Hmk; [|done].
    rewrite print_eq in H. destruct (printable (MsgDirCreated dd)); [|done].
    cbn [fs stdout stderr] in H.
    destruct (open_w f1 p0) as [[]|e] eqn:Ho; [|done].
    destruct (mapM encode_line (csv_lines false df)) as [content|]; [|done].
    destruct (printable (MsgSaved p0)) eqn:Hpr; [|done].
    injection H as <- <-. exists f1, content. cbn [fs stdout stderr].
    split_and!; [done..| |done]. by rewrite <- app_assoc.
Qed.

Lemma save_subseteq_dirs (env : Env) (symbol ak_adjust : pystr)
    (df : DataFrame) (w w' : World) (r : result exit) :
  save env symbol ak_adjust df w = (r, w') ->
  (forall q, is_Some (fs w !! q) -> is_Some (fs w' !! q)) /\
  (forall q, fs w !! q = Some Dir -> fs w' !! q = Some Dir).
Proof.
  rewrite save_eq. cbn zeta.
  set (dd := os_path_join (script_dir env) (py "A_data")).
  set (p := os_path_join dd (filename symbol ak_adjust)).
  assert (forall f : gmap path node, fs w ⊆ f ->
            (forall q, is_Some (fs w !! q) -> is_Some (f !! q)) /\
            (forall q, fs w !! q = Some Dir -> f !! q = Some Dir)) as Hsub.
  { intros f Hf. split.
    - intros q [n Hq]. exists n. by eapply lookup_weaken.
    - intros q Hq. by eapply lookup_weaken. }
  assert (forall (f : gmap path node) c, fs w ⊆ f -> open_w f p = Ok tt ->
            (forall q, is_Some (fs w !! q) -> is_Some (<[p := File c]> f !! q)) /\
            (forall q, fs w !! q = Some Dir -> <[p := File c]> f !! q = Some Dir))
    as Hins.
  { intros f c Hf (Hnd & _ & Hne)%open_w_Ok. split.
    - intros q [n Hq]. apply lookup_insert_is_Some'. right.
      exists n. by eapply lookup_weaken.
    - intros q Hq. pose proof (lookup_weaken _ _ _ _ Hq Hf) as Hq1.
      rewrite lookup_insert_ne; [done|]. intros <-.
      unfold is_dir in Hnd. destruct p; [done|]. by rewrite Hq1 in Hnd. }
  assert (forall w1 : World, fs w ⊆ fs w1 ->
            match open_w (fs w1) p with
            | Raise e => (Raise e, w1)
            | Ok _ =>
              match mapM encode_line (csv_lines false df) with
              | None =>
                (Raise UnicodeEncodeError,
                 {| fs := <[p := File (write_lines (csv_lines false df)).1]>
                            (fs w1);
                    stdout := stdout w1; stderr := stderr w1 |})
              | Some content =>
                if printable (MsgSaved p) then
                  (Ok (Completed p),
                   {| fs := <[p := File content]> (fs w1);
                      stdout := stdout w1 ++
                        [MsgSaved p; MsgRowCount (len df);
                         MsgPreviewTitle; MsgPreview (head df)];
                      stderr := stderr w1 |})
                else
                  (Raise UnicodeEncodeError,
                   {| fs := <[p := File content]> (fs w1);
                      stdout := stdout w1; stderr := stderr w1 |})
              end
            end = (r, w') ->
            (forall q, is_Some (fs w !! q) -> is_Some (fs w' !! q)) /\
            (forall q, fs w !! q = Some Dir -> fs w' !! q = Some Dir))
    as Hcsv.
  { intros w1 Hf. destruct (open_w (fs w1) p) as [[]|e] eqn:Ho.
    - destruct (mapM encode_line (csv_lines false df)) as [content|].
      + destruct (printable (MsgSaved p)); intros [= _ <-]; by apply Hins.
      + intros [= _ <-]. by apply Hins.
    - intros [= _ <-]. by apply Hsub. }
  destruct (exists_ (fs w) dd).
  - by apply Hcsv.
  - destruct (mkdirs [] dd (fs w)) as [[[]|e] f1] eqn:Hmk.
    + apply mkdirs_subseteq in Hmk. rewrite print_eq.
      destruct (printable (MsgDirCreated dd)).
      * by apply Hcsv.
      * intros [= _ <-]. by apply Hsub.
    + apply mkdirs_subseteq in Hmk. intros [= _ <-]. by apply Hsub.
Qed.

(** X5: a run removes nothing.  Whatever the provider returns and however
    the run ends, with [get_stock_data] returning or with an exception
    leaving it, every path of the file system is still there afterwards,
    and every directory is still a directory. *)
Theorem run_removes_nothing (env : Env) (symbol adjust_type : pystr) (w : World) :
  (forall q, is_Some (fs w !! q) ->
     is_Some (fs (get_stock_data env symbol adjust_type w).2 !! q)) /\
  (forall q, fs w !! q = Some Dir ->
     fs (get_stock_data env symbol adjust_type w).2 !! q = Some Dir).
Proof.
  rewrite get_stock_data_eq, try_block_eq.
  destruct (printable (MsgFetching symbol adjust_type)); [|done].
  set (w0 := {| fs := fs w; stdout := _; stderr := _ |}).
  destruct (fetch env symbol (adjust_map adjust_type)) as [df|e].
  2:{ by destruct (printable (MsgException e)). }
  destruct (empty df).
  { destruct (printable (MsgEmptyResult symbol)); [done|].
    by destruct (printable (MsgException UnicodeEncodeError)). }
  destruct (normalize df) as [out|e].
  2:{ by destruct (printable (MsgException e)). }
  destruct (save env symbol (adjust_map adjust_type) out w0) as [r w1] eqn:Hs.
  apply save_subseteq_dirs in Hs as [H1 H2].
  destruct r as [x|e]; [done|]. by destruct (printable (MsgException e)).
Qed.

(** X6: what a completed run prints and creates.  When the opening
    message was printed and the [try] block completes, the run returns;
    the file holds the encoded lines of the normalized table: the header,
    then one line for each of its rows.  After the opening message the run
    prints the notice of the data directory exactly when that directory
    was not there and had to be created, then the path, the number of
    rows of the normalized table, and a preview made of its first five
    rows at most; the error stream is untouched.  When the directory was
    there, the file system changes at the output path only; otherwise the
    directory is there afterwards. *)
Theorem completed_run (env : Env) (symbol adjust_type : pystr)
    (w w0 w' : World) (p : path) :
  print (MsgFetching symbol adjust_type) w = (Ok tt, w0) ->
  try_block env symbol (adjust_map adjust_type) w0 = (Ok (Completed p), w') ->
  let data_dir := os_path_join (script_dir env) (py "A_data") in
  exists df out header body,
    fetch env symbol (adjust_map adjust_type) = Ok df /\
    normalize df = Ok out /\
    mapM utf8_encode (columns out) = Some header /\
    Forall2 (fun (kr : Z * list cell) line =>
               mapM utf8_encode (to_text <$> kr.2) = Some line)
            (rows out) body /\
    get_stock_data env symbol adjust_type w = (Ok tt, w') /\
    fs w' !! p = Some (File (header :: body)) /\
    (if exists_ (fs w) data_dir
     then fs w' = <[p := File (header :: body)]> (fs w)
     else fs w' !! data_dir = Some Dir) /\
    stdout w' = stdout w ++ [MsgFetching symbol adjust_type] ++
      (if exists_ (fs w) data_dir then [] else [MsgDirCreated data_dir]) ++
      [MsgSaved p; MsgRowCount (length (rows out)); MsgPreviewTitle;
       MsgPreview {| columns := columns out; rows := take 5 (rows out) |}] /\
    length body = length (rows out) /\
    stderr w' = stderr w.
Proof.
  intros H0 Ht data_dir. rewrite print_eq in H0.
  destruct (printable (MsgFetching symbol adjust_type)) eqn:Hpr; [|done].
  injection H0 as <-.
  pose proof Ht as (df & out & content & Hf & He & Hn & Hp & Hc & Hfile & Hq)
    %try_block_Completed.
  assert (get_stock_data env symbol adjust_type w = (Ok tt, w')) as Hg
    by (by rewrite get_stock_data_eq, Hpr, Ht).
  rewrite try_block_eq, Hf, He, Hn in Ht.
  apply save_Completed in Ht
    as (f1 & content' & _ & Hmk & Ho & Hc' & _ & Hfs & Hout & Herr).
  rewrite Hc in Hc'. injection Hc' as <-.
  apply csv_lines_encoded in Hc as (header & body & -> & Hh & Hb).
  pose proof (Forall2_length _ _ _ Hb) as Hlen.
  exists df, out, header, body. cbn [fs stdout stderr] in *.
  fold data_dir in Hmk, Hout.
  split_and!; [done|done|done|done|done|done| | |done|done].
  - destruct (exists_ (fs w) data_dir); [by subst f1|].
    apply mkdirs_Ok in Hmk. cbn [app] in Hmk.
    rewrite Hfs, lookup_insert_ne; [done|]. intros <-.
    apply open_w_Ok in Ho as (Hnd & _ & _). unfold is_dir in Hnd.
    destruct p; [done|]. by rewrite Hmk in Hnd.
  - rewrite Hout. by rewrite <- !app_assoc.
Qed.

(** X7: a later run overwrites.  After a run that completed, a run for
    the same symbol and adjustment from the file system it left (under the
    same program directory, whatever the provider returns this time, as
    long as it normalizes and its texts can be encoded) completes at the
    same path without creating a directory or printing the notice of one,
    and replaces the file: the file system differs at that path only,
    where the file holds the lines of the new table and none of the old
    ones. *)
Theorem rerun_overwrites (env env2 : Env) (symbol ak_adjust : pystr)
    (w w' w1 : World) (p : path) (df2 out2 : DataFrame)
    (content2 : list (list (list N))) :
  try_block env symbol ak_adjust w = (Ok (Completed p), w') ->
  script_dir env2 = script_dir env ->
  fetch env2 symbol ak_adjust = Ok df2 ->
  empty df2 = false ->
  normalize df2 = Ok out2 ->
  mapM encode_line (csv_lines false out2) = Some content2 ->
  fs w1 = fs w' ->
  exists w'',
    try_block env2 symbol ak_adjust w1 = (Ok (Completed p), w'') /\
    fs w'' = <[p := File content2]> (fs w') /\
    stdout w'' = stdout w1 ++ [MsgSaved p; MsgRowCount (len out2);
                               MsgPreviewTitle; MsgPreview (head out2)] /\
    stderr w'' = stderr w1.
Proof.
  intros Ht Hd Hf2 He2 Hn2 Hc2 Hw1.
  rewrite try_block_eq in Ht.
  destruct (fetch env symbol ak_adjust) as [df|e]; [|done].
  destruct (empty df); [by destruct (printable _)|].
  destruct (normalize df) as [out|e]; [|done].
  apply save_Completed in Ht
    as (f1 & content & Hp & Hmk & Ho & _ & Hpr & Hfs & _ & _).
  assert (exists_ f1 (os_path_join (script_dir env) (py "A_data")) = true)
    as Hex.
  { destruct (exists_ (fs w) _) eqn:Hex; [by rewrite Hmk|].
    apply mkdirs_Ok in Hmk. cbn [app] in Hmk. by eapply exists_Some. }
  rewrite try_block_eq, Hf2, He2, Hn2.
  rewrite save_found.
  2:{ rewrite Hd, Hw1, Hfs. by apply exists_insert. }
  rewrite Hd, <- Hp, Hw1, Hfs.
  rewrite open_w_again by done. rewrite Hc2, Hpr.
  eexists. split; [done|]. cbn [fs stdout stderr].
  split_and!; [|done..]. by rewrite insert_insert_eq.
Qed.

(** X8: the data directory's name taken by a regular file.  When
    [A_data] under the program directory is a regular file, a run for a
    symbol without a path separator, whose opening message was printed
    and whose table is not empty and normalizes, creates no directory and
    writes no file: the write raises, and the file system is as it was.
    When the text of the exception can be printed the run reports it on
    both streams and returns; when it cannot, the print of the [except]
    clause raises and that exception leaves the run. *)
Theorem data_dir_is_file (env : Env) (symbol adjust_type : pystr)
    (w : World) (df out : DataFrame) (c : list (list (list N))) :
  printable (MsgFetching symbol adjust_type) = true ->
  fs w !! (script_dir env ++ [py "A_data"]) = Some (File c) ->
  sep ∉ symbol ->
  fetch env symbol (adjust_map adjust_type) = Ok df ->
  empty df = false ->
  normalize df = Ok out ->
  exists e,
    try_block env symbol (adjust_map adjust_type)
      {| fs := fs w; stdout := stdout w ++ [MsgFetching symbol adjust_type];
         stderr := stderr w |}
    = (Raise e, {| fs := fs w;
                   stdout := stdout w ++ [MsgFetching symbol adjust_type];
                   stderr := stderr w |}) /\
    get_stock_data env symbol adjust_type w =
    if printable (MsgException e) then
      (Ok tt, {| fs := fs w;
                 stdout := stdout w ++ [MsgFetching symbol adjust_type;
                                        MsgException e];
                 stderr := stderr w ++ [MsgTraceback e] |})
    else
      (Raise UnicodeEncodeError,
       {| fs := fs w; stdout := stdout w ++ [MsgFetching symbol adjust_type];
          stderr := stderr w |}).
Proof.
  intros Hpr Hfile Hs Hf He Hn.
  rewrite get_stock_data_eq, Hpr, try_block_eq, Hf, He, Hn.
  rewrite save_found; cbn [fs stdout stderr]; rewrite data_dir_plain.
  2:{ by eapply exists_Some. }
  cbn zeta.
  destruct (filename_plain symbol (adjust_map adjust_type)) as (? & ? & ? & ?);
    [done| |].
  { destruct (adj_suffix_cases adjust_type) as (Hin & _).
    apply (bool_decide_unpack _).
    repeat (apply elem_of_cons in Hin as [->|Hin]; [by vm_compute|]).
    by apply elem_of_nil in Hin. }
  rewrite os_path_join_plain by done.
  set (p := (script_dir env ++ [py "A_data"]) ++ _).
  assert (exists e, open_w (fs w) p = Raise e) as [e ->].
  { unfold open_w. destruct (is_dir (fs w) p); [by eexists|].
    unfold p. rewrite removelast_last.
    unfold is_dir. destruct (script_dir env ++ [py "A_data"]) eqn:Hdd.
    { by destruct (script_dir env). }
    rewrite Hfile. case_match; by eexists. }
  exists e. split; [done|]. cbn [fs stdout stderr].
  destruct (printable (MsgException e)); [|done].
  by rewrite <- app_assoc.
Qed.



(** X10: the emptiness check is not repeated after the row drop.  When
    the normalizer drops every row of a table that was not empty, a run
    that completes has still written its file, which holds the header
    line and nothing else, and reports 0 rows with an empty preview. *)
Theorem header_only_file (env : Env) (symbol ak_adjust : pystr)
    (w w' : World) (p : path) (df out : DataFrame) :
  fetch env symbol ak_adjust = Ok df ->
  normalize df = Ok out ->
  rows out = [] ->
  try_block env symbol ak_adjust w = (Ok (Completed p), w') ->
  empty df = false /\
  exists header pre,
    mapM utf8_encode (columns out) = Some header /\
    fs w' !! p = Some (File [header]) /\
    stdout w' = stdout w ++ pre ++
      [MsgSaved p; MsgRowCount 0; MsgPreviewTitle; MsgPreview out].
Proof.
  intros Hf Hn Hr Ht.
  pose proof Ht as (df' & out' & content & Hf' & He & Hn' & Hp & Hc & Hfile & _)
    %try_block_Completed.
  rewrite Hf in Hf'. injection Hf' as <-.
  rewrite Hn in Hn'. injection Hn' as <-.
  split; [done|].
  rewrite try_block_eq, Hf, He, Hn in Ht.
  apply save_Completed in Ht
    as (f1 & content' & _ & _ & _ & _ & _ & _ & Hout & _).
  apply csv_lines_encoded in Hc as (header & body & -> & Hh & Hb).
  rewrite Hr in Hb. apply Forall2_nil_inv_l in Hb as ->.
  eexists header, _. split_and!; [done..|].
  rewrite Hout. unfold len, head. rewrite Hr. cbn [length take].
  rewrite <- Hr. by destruct out.
Qed.

(** X11: a failure before the save changes nothing on disk.  When the
    opening message was printed and the provider raises, or the
    normalizer raises on the table fetched, the file system is exactly as
    it was afterwards: not even the data directory has been created.
    When the text of the exception can be printed the run reports it on
    both streams and returns; when it cannot, the print of the [except]
    clause raises and that exception leaves the run. *)
Theorem failure_before_save (env : Env) (symbol adjust_type : pystr)
    (w : World) (e : exn) :
  printable (MsgFetching symbol adjust_type) = true ->
  fetch env symbol (adjust_map adjust_type) = Raise e \/
  (exists df, fetch env symbol (adjust_map adjust_type) = Ok df /\
              empty df = false /\ normalize df = Raise e) ->
  get_stock_data env symbol adjust_type w =
  if printable (MsgException e) then
    (Ok tt, {| fs := fs w;
               stdout := stdout w ++ [MsgFetching symbol adjust_type;
                                      MsgException e];
               stderr := stderr w ++ [MsgTraceback e] |})
  else
    (Raise UnicodeEncodeError,
     {| fs := fs w; stdout := stdout w ++ [MsgFetching symbol adjust_type];
        stderr := stderr w |}).
Proof.
  intros Hpr [Hf|(df & Hf & He & Hn)];
    rewrite get_stock_data_eq, Hpr, try_block_eq, Hf, ?He, ?Hn;
    cbn [fs stdout stderr]; destruct (printable (MsgException e)); [|done| |done];
    by rewrite <- app_assoc.
Qed.

End FileSystem.

(** ** File names *)

Lemma filename_inj (s1 s2 t1 t2 : pystr) :
  t1 ∈ [py ""; py "hfq"; py "qfq"] -> t2 ∈ [py ""; py "hfq"; py "qfq"] ->
  filename s1 t1 = filename s2 t2 -> s1 = s2 /\ t1 = t2.
Proof.
  intros H1 H2 H. unfold filename in H.
  set (k1 := py "_" ++ adj_suffix t1 ++ py "_A_data.csv") in H.
  set (k2 := py "_" ++ adj_suffix t2 ++ py "_A_data.csv") in H.
  repeat (apply elem_of_cons in H1 as [->|H1]);
    [| | |by apply elem_of_nil in H1];
    (repeat (apply elem_of_cons in H2 as [->|H2]);
     [| | |by apply elem_of_nil in H2]);
    vm_compute in k1, k2; subst k1 k2;
    try (by apply app_inj_2 in H as [-> _]);
    try (by apply app_inj_2 in H as [_ ?]);
    apply (f_equal (@rev N)) in H; rewrite !rev_app_distr in H;
    cbn [rev app] in H; by simplify_eq.
Qed.

Section Names.
Context `{Lib : Library}.

(** X12: runs for different symbols or different resolved adjustments
    never share an output file.  For symbols without a path separator,
    under one program directory, two selectors and two symbols give the
    same output path only if the symbols are the same and the selectors
    resolve to the same adjustment. *)
Theorem output_path_injective (d : path) (s1 s2 a1 a2 : pystr) :
  sep ∉ s1 -> sep ∉ s2 ->
  output_path d s1 (adj_suffix (adjust_map a1)) =
  output_path d s2 (adj_suffix (adjust_map a2)) ->
  s1 = s2 /\ adjust_map a1 = adjust_map a2.
Proof.
  intros Hs1 Hs2. unfold output_path.
  change (s1 ++ py "_" ++ adj_suffix (adjust_map a1) ++ py "_A_data.csv")
    with (filename s1 (adjust_map a1)).
  change (s2 ++ py "_" ++ adj_suffix (adjust_map a2) ++ py "_A_data.csv")
    with (filename s2 (adjust_map a2)).
  assert (forall a, sep ∉ adj_suffix (adjust_map a)) as Hsep.
  { intros a. destruct (adj_suffix_cases a) as (Hin & _).
    apply (bool_decide_unpack _).
    repeat (apply elem_of_cons in Hin as [->|Hin]; [by vm_compute|]).
    by apply elem_of_nil in Hin. }
  destruct (filename_plain s1 (adjust_map a1)) as (? & ? & ? & ?); [done..|].
  destruct (filename_plain s2 (adjust_map a2)) as (? & ? & ? & ?); [done..|].
  rewrite (os_path_join_plain _ (filename s1 (adjust_map a1))) by done.
  rewrite (os_path_join_plain _ (filename s2 (adjust_map a2))) by done.
  intros [_ [= Hname]]%app_inj_2; [|done].
  apply filename_inj in Hname; [done|apply adjust_map_range..].
Qed.

(** X13: a symbol that starts with the path separator takes the output
    out of the data directory.  A run for such a symbol (with no other
    separator) that completes has written its file at the root of the
    file system, under the name made of the rest of the symbol, whatever
    the program directory is; that path is not inside the data
    directory. *)
Theorem absolute_symbol_escapes (env : Env) (s adjust_type : pystr)
    (w w' : World) (p : path) :
  sep ∉ s ->
  try_block env (sep :: s) (adjust_map adjust_type) w = (Ok (Completed p), w') ->
  p = [s ++ py "_" ++ adj_suffix (adjust_map adjust_type) ++ py "_A_data.csv"] /\
  (exists content, fs w' !! p = Some (File content)) /\
  ~ (script_dir env ++ [py "A_data"]) `prefix_of` p.
Proof.
  intros Hs (df & out & content & _ & _ & _ & Hp & _ & Hf & _)%try_block_Completed.
  assert (sep ∉ adj_suffix (adjust_map adjust_type)) as Hsep.
  { destruct (adj_suffix_cases adjust_type) as (Hin & _).
    apply (bool_decide_unpack _).
    repeat (apply elem_of_cons in Hin as [->|Hin]; [by vm_compute|]).
    by apply elem_of_nil in Hin. }
  destruct (filename_plain s (adjust_map adjust_type)) as (Hn & H0 & H1 & H2);
    [done..|].
  unfold filename in *.
  set (name := s ++ py "_" ++ adj_suffix (adjust_map adjust_type) ++
               py "_A_data.csv") in *.
  assert (p = [name]) as ->.
  { rewrite Hp. unfold os_path_join at 1. cbn [app].
    rewrite N.eqb_refl. cbn [split_sep]. rewrite N.eqb_refl.
    rewrite split_sep_plain by done. cbn [walk app].
    rewrite pystr_eqb_refl. cbn [orb]. fold name.
    apply pystr_eqb_false in H0, H1, H2. by rewrite H0, H1, H2. }
  split_and!; [done|by exists content|].
  intros [k Hk]. rewrite <- app_assoc in Hk.
  destruct (script_dir env) as [|a l]; cbn [app] in Hk.
  - injection Hk as Hk _. apply (f_equal length) in Hk. unfold name in Hk.
    rewrite !length_app in Hk.
    change (length (py "_A_data.csv")) with 11 in Hk.
    change (length (py "A_data")) with 6 in Hk. lia.
  - injection Hk as _ Hk. by destruct l.
Qed.

End Names.

(** ** The documented command lines *)

Section Usage.
Context `{Lib : Library}.

(** X14: the documented command lines are accepted.  For a code that
    does not start with a dash and an adjustment among qfq, hfq and none,
    [--code CODE --adjust ADJ], in either order, gives that code and that
    adjustment, and [--code CODE] alone gives the code and qfq; the
    process then runs [get_stock_data] on them, and ends with status 0
    in the world it leaves when it returns, with status 1 and the trace
    on the error stream when an exception leaves it. *)
Theorem documented_usage (env : Env) (code v : pystr) (w : World) :
  starts_with code [dash] = false ->
  v ∈ choices ->
  parse_args [py "--code"; code] = Namespace (Str code) (Str (py "qfq")) /\
  parse_args [py "--code"; code; py "--adjust"; v]
    = Namespace (Str code) (Str v) /\
  parse_args [py "--adjust"; v; py "--code"; code]
    = Namespace (Str code) (Str v) /\
  main env [py "--code"; code; py "--adjust"; v] w =
    match get_stock_data env code v w with
    | (Ok _, w') => (0, w')
    | (Raise e, w') =>
      (1, {| fs := fs w'; stdout := stdout w';
             stderr := stderr w' ++ [MsgTraceback e] |})
    end.
Proof.
  intros Hc Hv.
  assert (starts_with v [dash] = false) as Hvd.
  { unfold choices in Hv.
    repeat (apply elem_of_cons in Hv as [->|Hv]; [by vm_compute|]).
    by apply elem_of_nil in Hv. }
  apply str_in_true in Hv.
  assert (parse_args [py "--code"; code; py "--adjust"; v]
          = Namespace (Str code) (Str v)) as Hboth.
  { unfold parse_args. cbn [classify_all].
    replace (pystr_eqb (py "--code") (py "--")) with false by (by vm_compute).
    replace (pystr_eqb (py "--adjust") (py "--")) with false by (by vm_compute).
    rewrite classify_code, classify_adjust, !not_end_of_options by done.
    rewrite !classify_plain by done. run_consume.
    rewrite !value_of_plain by done. cbn [chosen]. by rewrite Hv. }
  split_and!.
  - unfold parse_args. cbn [classify_all].
    replace (pystr_eqb (py "--code") (py "--")) with false by (by vm_compute).
    rewrite classify_code, !not_end_of_options by done.
    rewrite !classify_plain by done. run_consume.
    by rewrite !value_of_plain by done.
  - done.
  - unfold parse_args. cbn [classify_all].
    replace (pystr_eqb (py "--code") (py "--")) with false by (by vm_compute).
    replace (pystr_eqb (py "--adjust") (py "--")) with false by (by vm_compute).
    rewrite classify_code, classify_adjust, !not_end_of_options by done.
    rewrite !classify_plain by done. run_consume.
    rewrite !value_of_plain by done. cbn [chosen]. by rewrite Hv.
  - by rewrite (main_Namespace _ _ _ _ _ Hboth).
Qed.

End Usage.

(** ** The shape of the normalized table *)

Lemma same_length_lookup {A B} (l : list A) (k : list B) :
  (forall j, is_Some (l !! j) <-> is_Some (k !! j)) -> length l = length k.
Proof.
  intros H.
  destruct (decide (length l < length k)) as [Hlt|Hge].
  - apply lookup_lt_is_Some_2, H, lookup_lt_is_Some_1 in Hlt. lia.
  - destruct (decide (length k < length l)) as [Hlt|Hge']; [|lia].
    apply lookup_lt_is_Some_2, H, lookup_lt_is_Some_1 in Hlt. lia.
Qed.

Section Shape.
Context `{Lib : Library}.

Lemma normalized_row_length (i : nat) (cols : list pystr)
    (kr kr' : Z * list cell) :
  normalized_row i cols kr kr' -> length kr'.2 = length kr.2.
Proof.
  intros (_ & t & _ & Hj). apply same_length_lookup. intros j.
  destruct (Hj j) as (Hi & Hnum & Hother).
  destruct (decide (j = i)) as [->|Hji].
  { rewrite Hi by done. by rewrite fmap_is_Some. }
  destruct (cols !! j) as [l|] eqn:Hl.
  - destruct (decide (l ∈ numeric_cols)) as [Hin|Hout].
    + destruct (Hnum l Hin eq_refl) as [float ->]. by rewrite fmap_is_Some.
    + rewrite Hother; [done..|]. intros l' Hl' [= <-]. done.
  - rewrite Hother; done.
Qed.

(** X15: the normalizer keeps the shape of the table.  It keeps the
    number of columns and their order under the renaming, adds no row,
    and gives every row it keeps the width of the fetched row it comes
    from: a rectangular table stays rectangular. *)
Theorem normalize_shape (df out : DataFrame) :
  normalize df = Ok out ->
  columns out = rename_label rename_table <$> columns df /\
  length (columns out) = length (columns df) /\
  length (rows out) <= length (rows df) /\
  (wf df -> wf out).
Proof.
  intros (i & dfc & _ & _ & Hc & Hco & Hrows & Hsub)%normalize_Ok.
  split_and!.
  - congruence.
  - by rewrite Hco, Hc, length_fmap.
  - apply sublist_length in Hsub. apply Forall2_length in Hrows. lia.
  - unfold wf. intros Hwf. rewrite Hco, Hc, length_fmap.
    assert (Forall (fun r : Z * list cell =>
                      length r.2 = length (columns df)) (rows dfc)) as Hall.
    2:{ rewrite Forall_forall in Hall. apply Forall_forall. intros x Hx.
        apply Hall. by eapply elem_of_sublist. }
    clear Hsub. induction Hrows as [|kr kr' l l' Hr _ IH]; [done|].
    apply Forall_cons in Hwf as [Hk Hwf].
    constructor; [|by apply IH].
    by rewrite (normalized_row_length _ _ _ _ Hr).
Qed.
End Shape.

(** ** Numeric fields in the written file *)

Section NumericFields.
Context `{Lib : Library}.

(** The date step leaves the other columns as they are. *)
Lemma format_date_column (df df' : DataFrame) (i n : nat) :
  format_date df = Ok df' -> locate (py "date") df = Ok i -> n <> i ->
  column n df' = column n df.
Proof.
  intros (i' & Hi' & _ & Hr)%format_date_Ok Hi Hn.
  rewrite Hi in Hi'. injection Hi' as <-. unfold column.
  induction Hr as [|kr kr' l l' (t & _ & ->) _ IH]; [done|].
  cbn [fmap list_fmap]. f_equal; [|exact IH].
  unfold cell_at. cbn [snd]. by rewrite list_lookup_insert_ne.
Qed.

(** A row of the normalized table, under a numeric name: the value is
    what the conversion of the column makes of the value fetched. *)
Lemma normalize_numeric_origin (df out : DataFrame) (kr' : Z * list cell)
    (l : pystr) (n : nat) :
  normalize df = Ok out -> kr' ∈ rows out -> l ∈ numeric_cols ->
  (rename_label rename_table <$> columns df) !! n = Some l ->
  exists kr, kr ∈ rows df /\ kr.1 = kr'.1 /\
    kr'.2 !! n =
    (fun c => settle (floats n df) (numeric_value c)) <$> kr.2 !! n.
Proof.
  unfold normalize. intros (dfc & Hc & Hd)%rbind_Ok Hin Hl Hcol.
  apply coerced_Ok in Hc as (dfd & Hf & Hn).
  pose proof Hf as (i & Hi & Hcd & Hrd)%format_date_Ok.
  apply coerce_columns_Ok in Hn as (_ & _ & Hrc); [|apply numeric_cols_NoDup].
  apply dropna_Ok in Hd as (ps & _ & _ & Hro).
  rewrite Hro in Hin. apply list_elem_of_In, filter_In in Hin as [Hin _].
  apply list_elem_of_In, list_elem_of_lookup in Hin as [k Hk].
  destruct (Forall2_lookup_r _ _ _ _ _ Hrc Hk) as (kr1 & Hk1 & Hid1 & Hj).
  destruct (Forall2_lookup_r _ _ _ _ _ Hrd Hk1) as (kr & Hk0 & t & _ & ->).
  change (rows (rename rename_table df)) with (rows df) in Hk0.
  change (columns (rename rename_table df))
    with (rename_label rename_table <$> columns df) in Hcd.
  assert (n <> i) as Hni.
  { intros ->. apply locate_column in Hi.
    change (columns (rename rename_table df))
      with (rename_label rename_table <$> columns df) in Hi.
    rewrite Hi in Hcol. injection Hcol as <-. by apply date_not_numeric. }
  exists kr. split_and!.
  - apply list_elem_of_lookup. by exists k.
  - done.
  - destruct (Hj n) as [Hnum _]. rewrite Hcd in Hnum.
    rewrite (Hnum l Hl Hcol). cbn [snd].
    rewrite list_lookup_insert_ne by done.
    unfold floats. by rewrite (format_date_column _ _ i n Hf Hi Hni).
Qed.

(** X16: what a numeric field of the file holds.  In the file of a run
    that completes, under each of the ten numeric names every line holds
    the text of what [to_numeric] makes of the value fetched there, in the
    dtype of its column: the text of the number a number or a text is
    read as, cast to a float when the column is one of floats, or the
    empty field for a missing value and for a text that is no number; no
    other text of the response gets through. *)
Theorem numeric_field_written (env : Env) (symbol ak_adjust : pystr)
    (w w' : World) (p : path) (df : DataFrame) (l : pystr) (n : nat) :
  try_block env symbol ak_adjust w = (Ok (Completed p), w') ->
  fetch env symbol ak_adjust = Ok df ->
  l ∈ numeric_cols ->
  (rename_label rename_table <$> columns df) !! n = Some l ->
  exists out header body,
    normalize df = Ok out /\
    fs w' !! p = Some (File (header :: body)) /\
    header !! n = utf8_encode l /\
    Forall2 (fun (kr' : Z * list cell) (line : list (list N)) =>
               exists kr, kr ∈ rows df /\ kr.1 = kr'.1 /\
                 (forall x, kr.2 !! n = Some (VNum x) ->
                    line !! n =
                    utf8_encode
                      (repr_number (if floats n df then to_float x else x))) /\
                 (forall s x, kr.2 !! n = Some (VStr s) ->
                    parse_number s = Some x ->
                    line !! n =
                    utf8_encode
                      (repr_number (if floats n df then to_float x else x))) /\
                 (forall s, kr.2 !! n = Some (VStr s) ->
                    parse_number s = None -> line !! n = Some []) /\
                 (kr.2 !! n = Some VNaN -> line !! n = Some []) /\
                 forall f, line !! n = Some f ->
                   f = [] \/ exists x, utf8_encode (repr_number x) = Some f)
            (rows out) body.
Proof.
  intros (df' & out & content & Hf & He & Hn & _ & Hc & Hp & _)%try_block_Completed
         Hf' Hl Hcol.
  rewrite Hf in Hf'. injection Hf' as ->.
  apply csv_lines_encoded in Hc as (header & body & -> & Hh & Hb).
  pose proof Hn as (i & dfc & Hi & _ & Hcc & Hco & _ & _)%normalize_Ok.
  pose proof (mapM_lookup _ _ _ n Hh) as Hhn.
  rewrite Hco, Hcc, Hcol in Hhn. cbn in Hhn.
  exists out, header, body. split_and!; [done..|].
  apply Forall2_same_length_lookup_2; [by eapply Forall2_length|].
  intros k kr' line Hkr' Hline.
  destruct (normalize_numeric_origin df out kr' l n Hn) as (kr & Hkr & Hk & Hv);
    [by apply list_elem_of_lookup; exists k|done..|].
  pose proof (Forall2_lookup_lr _ _ _ _ _ _ Hb Hkr' Hline) as Henc.
  assert (line !! n =
            kr.2 !! n ≫= (fun c => utf8_encode
                            (to_text (settle (floats n df) (numeric_value c)))))
    as Hfield.
  { rewrite (mapM_lookup _ _ _ n Henc), list_lookup_fmap, Hv.
    by destruct (kr.2 !! n). }
  exists kr. split_and!; [done..| | | | |].
  - intros x Hx. rewrite Hfield, Hx. cbn [mbind option_bind numeric_value].
    by destruct (floats n df).
  - intros s x Hs Hx. rewrite Hfield, Hs.
    cbn [mbind option_bind numeric_value]. rewrite Hx.
    by destruct (floats n df).
  - intros s Hs Hx. rewrite Hfield, Hs.
    cbn [mbind option_bind numeric_value]. by rewrite Hx.
  - intros Hx. by rewrite Hfield, Hx.
  - intros f Hfn. rewrite Hfn in Hfield.
    destruct (kr.2 !! n) as [c|]; [|done].
    change (Some f = utf8_encode
                       (to_text (settle (floats n df) (numeric_value c))))
      in Hfield.
    destruct (numeric_value_cases c) as [[x Hx]|Hx]; rewrite Hx in Hfield.
    + right. destruct (floats n df); cbn [settle to_text] in Hfield;
        by eexists.
    + left. cbn in Hfield. by injection Hfield as ->.
Qed.

End NumericFields.

(** ** More runs on the sample frames *)

Section MoreSamples.
#[local] Existing Instance sample.

Lemma date_column_required_witness :
  (py "date" ∉ (rename_label rename_table <$> columns dateless_frame)) /\
  normalize dateless_frame = Raise (KeyError (py "date")).
Proof.
  assert (py "date" ∉ (rename_label rename_table <$> columns dateless_frame))
    as H by (by apply str_in_false).
  split; [exact H|].
  exact (date_column_required dateless_frame H).
Defined.

Lemma date_column_twice_witness :
  (rename_label rename_table <$> columns twice_dated_frame) !! 0
    = Some (py "date") /\
  (rename_label rename_table <$> columns twice_dated_frame) !! 1
    = Some (py "date") /\
  exists e, normalize twice_dated_frame = Raise e.
Proof.
  split_and!; [reflexivity..|].
  apply (date_column_twice twice_dated_frame 0 1); [lia|reflexivity..].
Defined.

Lemma bad_date_raises_witness :
  locate (py "date") (rename rename_table misdated_frame) = Ok 0 /\
  parse_datetime (py "yesterday") = None /\
  normalize misdated_frame = Raise (ValueError (py "yesterday")).
Proof.
  assert (locate (py "date") (rename rename_table misdated_frame) = Ok 0)
    as H by reflexivity.
  assert (parse_datetime (py "yesterday") = None) as Hs by reflexivity.
  split_and!; [exact H | exact Hs |].
  apply (bad_date_raises misdated_frame 0
           [(0%Z, sample_row (on 2024 1 2) (py "600519")
                    (num 10) (num 11) (num 12) (num 9) (num 100))]
           []
           (1%Z, sample_row (txt "yesterday") (py "600519")
                   (num 10) (num 11) (num 12) (num 9) (num 100))
           (py "yesterday") H eq_refl eq_refl Hs).
  constructor; [|constructor]. eexists. reflexivity.
Defined.

Lemma numeric_column_required_witness :
  format_date (rename rename_table narrow_frame) = Ok narrow_dated /\
  exists pre l post,
    numeric_cols = pre ++ l :: post /\
    normalize narrow_frame = Raise (KeyError l).
Proof.
  assert (format_date (rename rename_table narrow_frame) = Ok narrow_dated)
    as H by reflexivity.
  assert (NoDup (rename_label rename_table <$> columns narrow_frame)) as Hnd
    by (apply (bool_decide_unpack _); vm_compute; reflexivity).
  assert (Exists (fun l => l ∉ (rename_label rename_table <$>
                                  columns narrow_frame)) numeric_cols) as Hex
    by (apply (bool_decide_unpack _); vm_compute; reflexivity).
  split; [exact H|].
  destruct (numeric_column_required narrow_frame narrow_dated H Hnd Hex)
    as (pre & l & post & Hsplit & _ & _ & Hn).
  exists pre, l, post. split; assumption.
Defined.

Lemma completed_run_witness :
  print (MsgFetching (py "600519") (py "hfq")) sample_world
    = (Ok tt, sample_opened) /\
  try_block (sample_env sample_frame) (py "600519") (adjust_map (py "hfq"))
    sample_opened = (Ok (Completed sample_path), sample_completed) /\
  exists header body,
    mapM utf8_encode (columns sample_normalized) = Some header /\
    get_stock_data (sample_env sample_frame) (py "600519") (py "hfq")
      sample_world = (Ok tt, sample_completed) /\
    fs sample_completed !! sample_path = Some (File (header :: body)) /\
    length body = length (rows sample_normalized) /\
    stderr sample_completed = stderr sample_world.
Proof.
  assert (print (MsgFetching (py "600519") (py "hfq")) sample_world
          = (Ok tt, sample_opened)) as H0 by reflexivity.
  assert (try_block (sample_env sample_frame) (py "600519")
            (adjust_map (py "hfq")) sample_opened
          = (Ok (Completed sample_path), sample_completed)) as H
    by reflexivity.
  split_and!; [exact H0 | exact H |].
  destruct (completed_run (sample_env sample_frame) (py "600519") (py "hfq")
              sample_world sample_opened sample_completed sample_path H0 H)
    as (df & out & header & body & Hf & Hn & Hh & _ & H1 & H2 & _ & _ & H3 & H4).
  injection Hf as <-.
  assert (normalize sample_frame = Ok sample_normalized) as Hn' by reflexivity.
  rewrite Hn' in Hn. injection Hn as <-.
  exists header, body. split_and!; assumption.
Defined.

Lemma rerun_overwrites_witness :
  try_block (sample_env sample_frame) (py "600519") (adjust_map (py "hfq"))
    sample_world = (Ok (Completed sample_path), sample_saved) /\
  normalize undated_frame = Ok undated_normalized /\
  mapM encode_line (csv_lines false undated_normalized) = Some undated_lines /\
  exists w'',
    try_block (sample_env undated_frame) (py "600519") (adjust_map (py "hfq"))
      sample_saved = (Ok (Completed sample_path), w'') /\
    fs w'' = <[sample_path := File undated_lines]> (fs sample_saved).
Proof.
  assert (try_block (sample_env sample_frame) (py "600519")
            (adjust_map (py "hfq")) sample_world
          = (Ok (Completed sample_path), sample_saved)) as H
    by reflexivity.
  assert (normalize undated_frame = Ok undated_normalized) as Hn
    by reflexivity.
  assert (mapM encode_line (csv_lines false undated_normalized)
          = Some undated_lines) as Hc
    by reflexivity.
  split_and!; [exact H | exact Hn | exact Hc |].
  destruct (rerun_overwrites (sample_env sample_frame)
              (sample_env undated_frame) (py "600519") (adjust_map (py "hfq"))
              sample_world sample_saved sample_saved sample_path
              undated_frame undated_normalized undated_lines
              H eq_refl eq_refl eq_refl Hn Hc eq_refl)
    as (w'' & H1 & H2 & _).
  exists w''. split; assumption.
Defined.

Lemma data_dir_is_file_witness :
  printable (MsgFetching (py "600519") (py "qfq")) = true /\
  fs blocked_world !! (script_dir (sample_env sample_frame) ++ [py "A_data"])
    = Some (File []) /\
  normalize sample_frame = Ok sample_normalized /\
  exists e,
    get_stock_data (sample_env sample_frame) (py "600519") (py "qfq")
      blocked_world =
    if printable (MsgException e) then
      (Ok tt, {| fs := fs blocked_world;
                 stdout := stdout blocked_world ++
                           [MsgFetching (py "600519") (py "qfq");
                            MsgException e];
                 stderr := stderr blocked_world ++ [MsgTraceback e] |})
    else
      (Raise UnicodeEncodeError,
       {| fs := fs blocked_world;
          stdout := stdout blocked_world ++
                    [MsgFetching (py "600519") (py "qfq")];
          stderr := stderr blocked_world |}).
Proof.
  assert (printable (MsgFetching (py "600519") (py "qfq")) = true) as Hpr
    by reflexivity.
  assert (fs blocked_world !!
            (script_dir (sample_env sample_frame) ++ [py "A_data"])
          = Some (File [])) as Hfile
    by reflexivity.
  assert (sep ∉ py "600519") as Hs
    by (apply (bool_decide_unpack _); vm_compute; reflexivity).
  assert (normalize sample_frame = Ok sample_normalized) as Hn
    by reflexivity.
  split_and!; [exact Hpr | exact Hfile | exact Hn |].
  destruct (data_dir_is_file (sample_env sample_frame) (py "600519") (py "qfq")
              blocked_world sample_frame sample_normalized []
              Hpr Hfile Hs eq_refl eq_refl Hn)
    as (e & _ & H1).
  exists e. exact H1.
Defined.

Lemma output_path_injective_witness :
  output_path [py "home"; py "u"] (py "600519") (adj_suffix (adjust_map (py "QFQ")))
  = output_path [py "home"; py "u"] (py "600519") (adj_suffix (adjust_map (py "qfq"))) /\
  adjust_map (py "QFQ") = adjust_map (py "qfq").
Proof.
  assert (sep ∉ py "600519") as Hs
    by (apply (bool_decide_unpack _); vm_compute; reflexivity).
  assert (output_path [py "home"; py "u"] (py "600519")
            (adj_suffix (adjust_map (py "QFQ")))
          = output_path [py "home"; py "u"] (py "600519")
              (adj_suffix (adjust_map (py "qfq")))) as H
    by reflexivity.
  split; [exact H|].
  exact (proj2 (output_path_injective [py "home"; py "u"] (py "600519")
                  (py "600519") (py "QFQ") (py "qfq") Hs Hs H)).
Defined.

Lemma absolute_symbol_escapes_witness :
  try_block (sample_env sample_frame) (sep :: py "600519")
    (adjust_map (py "hfq")) sample_world
  = (Ok (Completed [py "600519_hfq_A_data.csv"]), sample_escaped) /\
  (exists content,
     fs sample_escaped !! [py "600519_hfq_A_data.csv"] = Some (File content)) /\
  ~ (script_dir (sample_env sample_frame) ++ [py "A_data"])
      `prefix_of` [py "600519_hfq_A_data.csv"].
Proof.
  assert (sep ∉ py "600519") as Hs
    by (apply (bool_decide_unpack _); vm_compute; reflexivity).
  assert (try_block (sample_env sample_frame) (sep :: py "600519")
            (adjust_map (py "hfq")) sample_world
          = (Ok (Completed [py "600519_hfq_A_data.csv"]), sample_escaped)) as H
    by reflexivity.
  split; [exact H|].
  exact (proj2 (absolute_symbol_escapes (sample_env sample_frame) (py "600519")
                  (py "hfq") sample_world sample_escaped
                  [py "600519_hfq_A_data.csv"] Hs H)).
Defined.

Lemma documented_usage_witness :
  parse_args [py "--code"; py "600519"; py "--adjust"; py "none"]
    = Namespace (Str (py "600519")) (Str (py "none")) /\
  parse_args [py "--code"; py "600519"]
    = Namespace (Str (py "600519")) (Str (py "qfq")).
Proof.
  assert (py "none" ∈ choices) as Hv by (by apply str_in_true).
  destruct (documented_usage (sample_env sample_frame) (py "600519")
              (py "none") sample_world eq_refl Hv) as (H1 & H2 & _).
  split; assumption.
Defined.

Lemma normalize_shape_witness :
  normalize sample_frame = Ok sample_normalized /\
  length (columns sample_normalized) = length (columns sample_frame) /\
  length (rows sample_normalized) <= length (rows sample_frame).
Proof.
  assert (normalize sample_frame = Ok sample_normalized) as H
    by reflexivity.
  split; [exact H|].
  destruct (normalize_shape sample_frame sample_normalized H)
    as (_ & H1 & H2 & _).
  split; assumption.
Defined.

Lemma header_only_file_witness :
  normalize hollow_frame = Ok hollow_normalized /\
  rows hollow_normalized = [] /\
  try_block (sample_env hollow_frame) (py "600519") (adjust_map (py "hfq"))
    sample_world = (Ok (Completed sample_path), hollow_saved) /\
  empty hollow_frame = false /\
  exists header, fs hollow_saved !! sample_path = Some (File [header]).
Proof.
  assert (normalize hollow_frame = Ok hollow_normalized) as Hn
    by reflexivity.
  assert (try_block (sample_env hollow_frame) (py "600519")
            (adjust_map (py "hfq")) sample_world
          = (Ok (Completed sample_path), hollow_saved)) as H
    by reflexivity.
  split_and!; [exact Hn | reflexivity | exact H |..].
  - exact (proj1 (header_only_file (sample_env hollow_frame) (py "600519")
                    (adjust_map (py "hfq")) sample_world hollow_saved
                    sample_path hollow_frame hollow_normalized
                    eq_refl Hn eq_refl H)).
  - destruct (header_only_file (sample_env hollow_frame) (py "600519")
                (adjust_map (py "hfq")) sample_world hollow_saved
                sample_path hollow_frame hollow_normalized
                eq_refl Hn eq_refl H) as (_ & header & pre & _ & Hfile & _).
    by exists header.
Defined.

Lemma failure_before_save_witness :
  printable (MsgFetching (py "600519") (py "qfq")) = true /\
  fetch (sample_env misdated_frame) (py "600519") (adjust_map (py "qfq"))
    = Ok misdated_frame /\
  normalize misdated_frame = Raise (ValueError (py "yesterday")) /\
  get_stock_data (sample_env misdated_frame) (py "600519") (py "qfq")
    sample_world =
  (Ok tt, {| fs := fs sample_world;
             stdout := [MsgFetching (py "600519") (py "qfq");
                        MsgException (ValueError (py "yesterday"))];
             stderr := [MsgTraceback (ValueError (py "yesterday"))] |}).
Proof.
  assert (printable (MsgFetching (py "600519") (py "qfq")) = true) as Hpr
    by reflexivity.
  assert (normalize misdated_frame = Raise (ValueError (py "yesterday"))) as Hn
    by reflexivity.
  split_and!; [exact Hpr | reflexivity | exact Hn |].
  rewrite (failure_before_save (sample_env misdated_frame) (py "600519")
             (py "qfq") sample_world (ValueError (py "yesterday")) Hpr).
  - reflexivity.
  - right. exists misdated_frame. split_and!; [reflexivity..|exact Hn].
Defined.

Lemma numeric_field_written_witness :
  try_block (sample_env sample_frame) (py "600519") (adjust_map (py "hfq"))
    sample_world = (Ok (Completed sample_path), sample_saved) /\
  (py "volume" ∈ numeric_cols) /\
  (rename_label rename_table <$> columns sample_frame) !! 6 = Some (py "volume") /\
  exists out header body,
    normalize sample_frame = Ok out /\
    fs sample_saved !! sample_path = Some (File (header :: body)) /\
    header !! 6 = utf8_encode (py "volume").
Proof.
  assert (try_block (sample_env sample_frame) (py "600519")
            (adjust_map (py "hfq")) sample_world
          = (Ok (Completed sample_path), sample_saved)) as H
    by reflexivity.
  assert (py "volume" ∈ numeric_cols) as Hl by (by apply str_in_true).
  split_and!; [exact H | exact Hl | reflexivity |].
  destruct (numeric_field_written (sample_env sample_frame) (py "600519")
              (adjust_map (py "hfq")) sample_world sample_saved sample_path
              sample_frame (py "volume") 6 H eq_refl Hl eq_refl)
    as (out & header & body & Hn & Hp & Hh & _).
  exists out, header, body. split_and!; assumption.
Defined.

End MoreSamples.
